(** * Attrezo-py: catalogue scraper (fetch, parse, extract, aggregate)

    Shallow embedding of [src/Attrezo-py.py] and proofs about it.

    Modelling conventions.
    - A Python [str] is a [string]; one [ascii] stands for one character, so
      [String.length] plays the role of [len].
    - A Python [int] is a [Z]; [range(a, b)] is [seqZ a (b - a)].
    - Exceptions are explicit: a computation that may raise returns a
      [result].  A bare [except:] is [try_except], which catches every
      exception.
    - [print] appends a line to the [stdout] of the [world]; an HTTP GET
      appends its URL to [requests].
    - Coroutines are trees of type [coro]; the event loop resumes one task
      at a time, in an order chosen by a schedule.
    - The libraries the script imports are not part of the repository.  What
      the script relies on is modelled from their documented behaviour:
      [findAll], [getText] and [get] of BeautifulSoup, the [DataFrame]
      constructor and [concat] of pandas, [gather] of asyncio.  The HTML
      parser itself and the remote server are parameters. *)

From stdpp Require Import base option list list_numbers strings numbers pretty.

Set Warnings "-register-all".
Open Scope Z_scope.

(** ** Exceptions *)

Inductive exn : Type :=
| IndexError
| AttributeError
| ValueError (msg : string)
| ClientError.

Inductive result (A : Type) : Type :=
| Ok (a : A)
| Raise (e : exn).
Arguments Ok {A} a.
Arguments Raise {A} e.

#[global] Instance result_ret : MRet result := fun A a => Ok a.
#[global] Instance result_bind : MBind result := fun A B f r =>
  match r with
  | Ok a => f a
  | Raise e => Raise e
  end.

(** [try: x = body; use x  except: fallback] *)
Definition try_except {A B : Type} (body : result A) (use : A → B) (fallback : B) : B :=
  match body with
  | Ok a => use a
  | Raise _ => fallback
  end.

(** [l[0]] *)
Definition item0 {A : Type} (l : list A) : result A :=
  match l with
  | [] => Raise IndexError
  | x :: _ => Ok x
  end.

(** ** The document tree of BeautifulSoup *)

(** A node is a piece of text or a tag.  The [class] attribute of a tag is
    kept apart from the others, split into its tokens, the way BeautifulSoup
    stores it. *)
Inductive node : Type :=
| NavigableString (s : string)
| Tag (name : string) (class_ : list string) (attrs : list (string * string))
      (contents : list node).

(** All the nodes below [n], in document order. *)
Fixpoint descendants (n : node) : list node :=
  match n with
  | NavigableString _ => []
  | Tag _ _ _ contents =>
      (fix walk (l : list node) : list node :=
         match l with
         | [] => []
         | c :: rest => c :: descendants c ++ walk rest
         end) contents
  end.

(** [n.getText()]: the text pieces below [n], joined. *)
Fixpoint getText (n : node) : string :=
  match n with
  | NavigableString s => s
  | Tag _ _ _ contents =>
      (fix walk (l : list node) : string :=
         match l with
         | [] => ""
         | c :: rest => getText c +:+ walk rest
         end) contents
  end.

Fixpoint join_classes (l : list string) : string :=
  match l with
  | [] => ""
  | [c] => c
  | c :: rest => c +:+ " " +:+ join_classes rest
  end.

(** A class filter matches a tag when it equals one of the tag's class
    tokens, or the whole class attribute. *)
Definition class_matches (wanted : string) (class_ : list string) : bool :=
  existsb (String.eqb wanted) class_ || String.eqb wanted (join_classes class_).

Definition matches (name : string) (cls : option string) (n : node) : bool :=
  match n with
  | NavigableString _ => false
  | Tag name' class_ _ _ =>
      String.eqb name name' &&
      match cls with
      | None => true
      | Some wanted => class_matches wanted class_
      end
  end.

(** [n.findAll(name, {"class": cls})] and [n.findAll(name)] *)
Definition findAll (n : node) (name : string) (cls : option string) : list node :=
  List.filter (matches name cls) (descendants n).

(** [n.get(key)]: [None] when the attribute is missing. *)
Definition get (n : node) (key : string) : option string :=
  match n with
  | NavigableString _ => None
  | Tag _ _ attrs _ => snd <$> List.find (fun kv => String.eqb key (fst kv)) attrs
  end.

(** ** Cells and tables of pandas *)

(** A cell of the table: a string, [np.nan], or [None].  The last two are
    what pandas calls null. *)
Inductive cell : Type :=
| Str (s : string)
| NaN
| PyNone.

Definition is_null (c : cell) : bool :=
  match c with
  | Str _ => false
  | NaN | PyNone => true
  end.

(** A table with the five columns of the script. *)
Record DataFrame : Type := mkDataFrame {
  nombre : list cell;
  categoria : list cell;
  descripcion : list cell;
  seccion : list cell;
  url : list cell
}.

Definition nrows (df : DataFrame) : nat := length (nombre df).

(** [pd.DataFrame({...})] on five lists: pandas refuses lists of different
    lengths. *)
Definition pd_DataFrame (nombres categorias descripciones secciones imagenes : list cell)
  : result DataFrame :=
  let n := length nombres in
  if (length categorias =? n)%nat && (length descripciones =? n)%nat &&
     (length secciones =? n)%nat && (length imagenes =? n)%nat
  then Ok (mkDataFrame nombres categorias descripciones secciones imagenes)
  else Raise (ValueError "All arrays must be of the same length").

Definition df_append (a b : DataFrame) : DataFrame :=
  mkDataFrame (nombre a ++ nombre b) (categoria a ++ categoria b)
              (descripcion a ++ descripcion b) (seccion a ++ seccion b)
              (url a ++ url b).

Definition df_empty : DataFrame := mkDataFrame [] [] [] [] [].

(** [pd.concat(df_list, ignore_index=True)]: pandas refuses an empty list. *)
Definition pd_concat (df_list : list DataFrame) : result DataFrame :=
  match df_list with
  | [] => Raise (ValueError "No objects to concatenate")
  | _ => Ok (foldr df_append df_empty df_list)
  end.

(** ** The record extractor *)

Definition page_size : nat := 48.

(** The loop over the product blocks (lines 73-84): one name and one
    category per block, each under its own [try]. *)
Definition nombres_categorias (lista_prod_cat : list node) : list cell * list cell :=
  fold_left
    (fun '(nombres_productos, categorias_productos) producto =>
       let nombres_productos :=
         try_except (x ← item0 (findAll producto "a" (Some "title")); mret (getText x))
           (fun nombre => nombres_productos ++ [Str nombre])
           (nombres_productos ++ [NaN]) in
       let categorias_productos :=
         try_except (x ← item0 (findAll producto "a" (Some "tag")); mret (getText x))
           (fun categoria => categorias_productos ++ [Str categoria])
           (categorias_productos ++ [NaN]) in
       (nombres_productos, categorias_productos))
    lista_prod_cat ([], []).

(** The loop over the section blocks (lines 89-93). *)
Definition secciones (lista_secciones : list node) : list cell :=
  fold_left
    (fun secciones_productos seccion =>
       if (1 <? String.length (getText seccion))%nat
       then secciones_productos ++ [Str (getText seccion)]
       else secciones_productos ++ [NaN])
    lista_secciones [].

(** The loop over the paragraphs and the slice [[:48]] (lines 98-100). *)
Definition descripciones (lista_descripciones : list node) : list cell :=
  let descripciones_productos :=
    fold_left
      (fun descripciones_productos descripcion =>
         descripciones_productos ++ [Str (getText descripcion)])
      lista_descripciones [] in
  take page_size descripciones_productos.

(** The loop over the image containers (lines 105-110).  An [img] without
    [src] gives [None]; a container without [img] gives [np.nan]. *)
Definition imagenes (lista_imagenes : list node) : list cell :=
  fold_left
    (fun imagenes_productos imagen =>
       try_except (x ← item0 (findAll imagen "img" None); mret (get x "src"))
         (fun link => imagenes_productos ++ [from_option Str PyNone link])
         (imagenes_productos ++ [NaN]))
    lista_imagenes [].

(** The five lists of a document, each as [llenar_diccionario] builds it. *)
Definition nombres_productos (sopa : node) : list cell :=
  (nombres_categorias (findAll sopa "div" (Some "product-slide-entry shift-image"))).1.
Definition categorias_productos (sopa : node) : list cell :=
  (nombres_categorias (findAll sopa "div" (Some "product-slide-entry shift-image"))).2.
Definition secciones_productos (sopa : node) : list cell :=
  secciones (findAll sopa "div" (Some "cat-sec-box")).
Definition descripciones_productos (sopa : node) : list cell :=
  descripciones (findAll sopa "p" None).
Definition imagenes_productos (sopa : node) : list cell :=
  imagenes (findAll sopa "div" (Some "product-image")).

(** [llenar_diccionario(sopa_atrezzo)].  The argument is [None] when the
    page has no document; calling [findAll] on it raises. *)
Definition llenar_diccionario (sopa_atrezzo : option node) : result DataFrame :=
  match sopa_atrezzo with
  | None => Raise AttributeError
  | Some sopa =>
      let lista_prod_cat := findAll sopa "div" (Some "product-slide-entry shift-image") in
      let '(nombres_productos, categorias_productos) := nombres_categorias lista_prod_cat in
      let lista_secciones := findAll sopa "div" (Some "cat-sec-box") in
      let secciones_productos := secciones lista_secciones in
      let lista_descripciones := findAll sopa "p" None in
      let descripciones_productos := descripciones lista_descripciones in
      let lista_imagenes := findAll sopa "div" (Some "product-image") in
      let imagenes_productos := imagenes lista_imagenes in
      pd_DataFrame nombres_productos categorias_productos descripciones_productos
                   secciones_productos imagenes_productos
  end.

(** [concat_df(df_list)] *)
Definition concat_df (df_list : list DataFrame) : result DataFrame :=
  pd_concat df_list.

(** ** Network, output and coroutines *)

Record response : Type := mkResponse {
  status : Z;
  text : string
}.

(** What a run leaves behind: the lines printed and the URLs requested. *)
Record world : Type := mkWorld {
  stdout : list string;
  requests : list string
}.

Definition print_line (line : string) (w : world) : world :=
  mkWorld (stdout w ++ [line]) (requests w).

Definition log_request (url : string) (w : world) : world :=
  mkWorld (stdout w) (requests w ++ [url]).

(** A coroutine: it returns, raises, prints and goes on, or waits at one of
    the two [await] points of the script: the arrival of the response to a
    GET, and the arrival of the body of a response. *)
Inductive coro (A : Type) : Type :=
| Return (a : A)
| Throw (e : exn)
| Print (line : string) (k : coro A)
| SessionGet (url : string) (k : response → coro A)
| ResponseText (r : response) (k : string → coro A).
Arguments Return {A} a.
Arguments Throw {A} e.
Arguments Print {A} line k.
Arguments SessionGet {A} url k.
Arguments ResponseText {A} r k.

Fixpoint coro_bind {A B : Type} (f : A → coro B) (c : coro A) : coro B :=
  match c with
  | Return a => f a
  | Throw e => Throw e
  | Print line k => Print line (coro_bind f k)
  | SessionGet url k => SessionGet url (fun r => coro_bind f (k r))
  | ResponseText r k => ResponseText r (fun s => coro_bind f (k s))
  end.

#[global] Instance coro_ret : MRet coro := fun A a => Return a.
#[global] Instance coro_mbind : MBind coro := fun A B f c => coro_bind f c.

Definition print (line : string) : coro () := Print line (Return ()).
Definition session_get (url : string) : coro response := SessionGet url Return.
Definition response_text (r : response) : coro string := ResponseText r Return.

(** Truth value of a [str]: false exactly for the empty one. *)
Definition truthy (s : string) : bool :=
  match s with
  | EmptyString => false
  | String _ _ => true
  end.

(** [fetch_async_url(url, session_objetivo)] *)
Definition fetch_async_url (url : string) : coro string :=
  response ← session_get url;
  (if bool_decide (status response ≠ 200)
   then print "Se ha producido un error"
   else mret ());;
  print ("Status code: " +:+ pretty (status response));;
  response_text response.

Definition url_atrezzo (page : Z) : string :=
  "https://atrezzovazquez.es/shop.php?search_type=-1&search_terms=&limit=48&page="
  +:+ pretty page.

(** [range(a, b)] *)
Definition range (a b : Z) : list Z := seqZ a (b - a).

(** A task is a coroutine not yet started, one waiting at an [await], or a
    finished one. *)
Inductive task (A : Type) : Type :=
| Ready (c : coro A)
| AwaitingResponse (url : string) (k : response → coro A)
| AwaitingText (r : response) (k : string → coro A)
| Finished (r : result A).
Arguments Ready {A} c.
Arguments AwaitingResponse {A} url k.
Arguments AwaitingText {A} r k.
Arguments Finished {A} r.

(** The state of the event loop: the tasks and the world, or the exception
    that stopped it. *)
Inductive loop_state (A : Type) : Type :=
| Running (tasks : list (task A)) (w : world)
| Raised (e : exn) (w : world).
Arguments Running {A} tasks w.
Arguments Raised {A} e w.

Section Run.

(** [BeautifulSoup(html, "html.parser")]: the parser of the library. *)
Variable BeautifulSoup : string → node.

(** The answer of the server to each URL in this run; [None] when the
    connection fails, which makes the GET raise. *)
Variable session : string → option response.

(** [sopa_atrezzo(session, page)] *)
Definition sopa_atrezzo (page : Z) : coro (option node) :=
  html_content ← fetch_async_url (url_atrezzo page);
  if truthy html_content
  then mret (Some (BeautifulSoup html_content))
  else mret None.

(** What [sopa_atrezzo] does once the response to its GET has arrived. *)
Definition sopa_atrezzo_respuesta (response : response) : coro (option node) :=
  html_content ←
    ((if bool_decide (status response ≠ 200)
      then print "Se ha producido un error"
      else mret ());;
     print ("Status code: " +:+ pretty (status response));;
     response_text response);
  if truthy html_content
  then mret (Some (BeautifulSoup html_content))
  else mret None.

(** *** The event loop *)

(** Runs a coroutine up to its next [await] or its end.  Reaching a GET
    sends the request. *)
Fixpoint advance {A : Type} (c : coro A) (w : world) : task A * world :=
  match c with
  | Return a => (Finished (Ok a), w)
  | Throw e => (Finished (Raise e), w)
  | Print line k => advance k (print_line line w)
  | SessionGet url k => (AwaitingResponse url k, log_request url w)
  | ResponseText r k => (AwaitingText r k, w)
  end.

(** One turn of the loop for a task: what it was waiting for has arrived. *)
Definition resume {A : Type} (t : task A) (w : world) : task A * world :=
  match t with
  | Ready c => advance c w
  | AwaitingResponse url k =>
      match session url with
      | Some r => advance (k r) w
      | None => (Finished (Raise ClientError), w)
      end
  | AwaitingText r k => advance (k (text r)) w
  | Finished r => (t, w)
  end.

(** The loop resumes the tasks in the order of the schedule, and keeps the
    state of task [i] in slot [i].  It stops at the first task that ends
    with an exception, which [gather] passes on to its caller. *)
Fixpoint run_loop {A : Type} (tasks : list (task A)) (sched : list nat) (w : world)
  : loop_state A :=
  match sched with
  | [] => Running tasks w
  | i :: sched =>
      match tasks !! i with
      | None => run_loop tasks sched w
      | Some t =>
          let '(t', w') := resume t w in
          match t' with
          | Finished (Raise e) => Raised e w'
          | _ => run_loop (<[i := t']> tasks) sched w'
          end
      end
  end.

Definition task_value {A : Type} (t : task A) : option A :=
  match t with
  | Finished (Ok a) => Some a
  | _ => None
  end.

(** [await asyncio.gather] on a list of coroutines.  The tasks are started in the order
    given, then resumed in the order of [sched].  The outcome is [None]
    while some task is still waiting; once all are finished, the results
    are read slot by slot, in the order the coroutines were given. *)
Definition gather {A : Type} (coros : list (coro A)) (sched : list nat) (w : world)
  : option (result (list A)) * world :=
  match run_loop (Ready <$> coros) (seq 0 (length coros) ++ sched) w with
  | Raised e w' => (Some (Raise e), w')
  | Running tasks w' => (Ok <$> mapM task_value tasks, w')
  end.

(** The extraction loop of [main] (lines 154-160). *)
Definition extraer (sopas : list (option node)) (w : world) : list DataFrame * world :=
  fold_left
    (fun '(df_list, w) sopa =>
       try_except (llenar_diccionario sopa)
         (fun df_atrezzo => (df_list ++ [df_atrezzo], w))
         (df_list, print_line "No se ha añadido la página" w))
    sopas ([], w).

(** [main(paginas)], run under the schedule [sched]. *)
Definition main (paginas : Z) (sched : list nat) (w : world)
  : option (result DataFrame) * world :=
  let tareas :=
    fold_left (fun tareas pagina => tareas ++ [sopa_atrezzo pagina])
              (range 1 paginas) [] in
  match gather tareas sched w with
  | (None, w) => (None, w)
  | (Some (Raise e), w) => (Some (Raise e), w)
  | (Some (Ok sopas), w) =>
      let '(df_list, w) := extraer sopas w in
      (Some (concat_df df_list), w)
  end.

(** *** A task on its own *)

(** The result of a coroutine run to its end without interruption. *)
Fixpoint run_alone {A : Type} (c : coro A) : result A :=
  match c with
  | Return a => Ok a
  | Throw e => Raise e
  | Print _ k => run_alone k
  | SessionGet url k =>
      match session url with
      | Some r => run_alone (k r)
      | None => Raise ClientError
      end
  | ResponseText r k => run_alone (k (text r))
  end.

(** The result a task is heading to. *)
Definition task_outcome {A : Type} (t : task A) : result A :=
  match t with
  | Ready c => run_alone c
  | AwaitingResponse url k =>
      match session url with
      | Some r => run_alone (k r)
      | None => Raise ClientError
      end
  | AwaitingText r k => run_alone (k (text r))
  | Finished r => r
  end.

(** The number of [await] points a coroutine still has to pass. *)
Fixpoint awaits {A : Type} (c : coro A) : nat :=
  match c with
  | Return _ | Throw _ => 0
  | Print _ k => awaits k
  | SessionGet url k =>
      S (match session url with
         | Some r => awaits (k r)
         | None => 0
         end)
  | ResponseText r k => S (awaits (k (text r)))
  end.

(** The number of turns of the loop a task needs to finish. *)
Definition turns_left {A : Type} (t : task A) : nat :=
  match t with
  | Ready c => S (awaits c)
  | AwaitingResponse url k =>
      S (match session url with
         | Some r => awaits (k r)
         | None => 0
         end)
  | AwaitingText r k => S (awaits (k (text r)))
  | Finished _ => 0
  end.

(** Whether a coroutine, and a task, will send no further request. *)
Fixpoint sends_nothing {A : Type} (c : coro A) : bool :=
  match c with
  | Return _ | Throw _ => true
  | Print _ k => sends_nothing k
  | SessionGet _ _ => false
  | ResponseText r k => sends_nothing (k (text r))
  end.

Definition task_sends_nothing {A : Type} (t : task A) : bool :=
  match t with
  | Ready c => sends_nothing c
  | AwaitingResponse url k =>
      match session url with
      | Some r => sends_nothing (k r)
      | None => true
      end
  | AwaitingText r k => sends_nothing (k (text r))
  | Finished _ => true
  end.

(** The exception a task has ended with, if any. *)
Definition raised_by {A : Type} (t : task A) : option exn :=
  match t with
  | Finished (Raise e) => Some e
  | _ => None
  end.

Definition loop_world {A : Type} (s : loop_state A) : world :=
  match s with
  | Running _ w => w
  | Raised _ w => w
  end.

End Run.

(** The first exception of a list of results, or all their values. *)
Fixpoint result_all {A : Type} (l : list (result A)) : result (list A) :=
  match l with
  | [] => Ok []
  | r :: rest => a ← r; as_ ← result_all rest; mret (a :: as_)
  end.

(** The tables of the documents whose extraction succeeds, in the order of
    the documents. *)
Definition tablas (sopas : list (option node)) : list DataFrame :=
  omap (fun sopa => match llenar_diccionario sopa with
                    | Ok df => Some df
                    | Raise _ => None
                    end) sopas.

(** What one block contributes to each list. *)
Definition celda_texto (encontrados : list node) : cell :=
  match encontrados with
  | [] => NaN
  | x :: _ => Str (getText x)
  end.

Definition celda_seccion (seccion : node) : cell :=
  if (1 <? String.length (getText seccion))%nat then Str (getText seccion) else NaN.

Definition celda_imagen (imagen : node) : cell :=
  match findAll imagen "img" None with
  | [] => NaN
  | x :: _ => from_option Str PyNone (get x "src")
  end.

(** ** Example documents *)

Definition parrafo (s : string) : node := Tag "p" [] [] [NavigableString s].

(** A product block with every element the extractor looks for. *)
Definition producto_completo : node :=
  Tag "div" ["product-slide-entry"; "shift-image"] []
    [ Tag "div" ["product-image"] []
        [ Tag "img" [] [("alt", "silla"); ("src", "admin/img_prod/silla.jpg")] [] ];
      Tag "a" ["tag"] [("href", "#")] [NavigableString "Sillas"];
      Tag "a" ["title"] [("href", "#")] [NavigableString "Silla Luis XV"];
      Tag "div" ["cat-sec-box"] [] [NavigableString "Comedor"];
      parrafo "Silla de madera tallada" ].

(** A product block without name, with an image container without [img],
    and with an empty section. *)
Definition producto_incompleto : node :=
  Tag "div" ["product-slide-entry"; "shift-image"] []
    [ Tag "div" ["product-image"] [] [];
      Tag "a" ["tag"] [] [NavigableString "Mesas"];
      Tag "div" ["cat-sec-box"] [] [NavigableString " "];
      parrafo "Mesa baja" ].

(** A product block whose [img] has no [src]. *)
Definition producto_sin_src : node :=
  Tag "div" ["product-slide-entry"; "shift-image"] []
    [ Tag "div" ["product-image"] [] [ Tag "img" [] [("alt", "x")] [] ];
      Tag "a" ["title"] [] [NavigableString "Espejo"];
      Tag "div" ["cat-sec-box"] [] [NavigableString "Pared"];
      parrafo "Espejo dorado" ].

Definition documento (contents : list node) : node := Tag "[document]" [] [] contents.

Definition doc_uno : node := documento [producto_completo].
Definition doc_tres : node :=
  documento [producto_completo; producto_incompleto; producto_sin_src].

(** One product block and 48 paragraphs. *)
Definition doc_un_producto_48_parrafos : node :=
  documento (producto_completo :: replicate 47 (parrafo "relleno")).

(** 48 product blocks, and 2 more paragraphs after them. *)
Definition doc_48_productos : node :=
  documento (replicate 48 producto_completo ++ [parrafo "pie"; parrafo "aviso"]).

(** A page without product blocks but with a paragraph. *)
Definition doc_error : node := documento [parrafo "Not found"].




(** ** Example runs *)

(** A parser for the examples: three bodies stand for three documents. *)
Definition parser_demo (html : string) : node :=
  if String.eqb html "<uno>" then doc_uno
  else if String.eqb html "<tres>" then doc_tres
  else if String.eqb html "<error>" then doc_error
  else documento [NavigableString html].

(** Every request is answered with status 500 and a body holding a product. *)
Definition session_500 (url : string) : option response :=
  Some (mkResponse 500 "<uno>").

(** Page 1 and page 2 are found; any other page is not. *)
Definition session_ok (url : string) : option response :=
  if String.eqb url (url_atrezzo 1) then Some (mkResponse 200 "<uno>")
  else if String.eqb url (url_atrezzo 2) then Some (mkResponse 200 "<tres>")
  else Some (mkResponse 404 "<error>").

(** Every page is answered with status 404 and an error page. *)
Definition session_404 (url : string) : option response :=
  Some (mkResponse 404 "<error>").

Definition mundo_inicial : world := mkWorld [] [].

(** * Properties *)

(** ** The loops of the extractor *)

Section Loops.
Context {A B : Type}.

(** A loop that appends one element per item builds the image of the
    list, after what was there before. *)
Lemma fold_left_append (g : list B → A → list B) (f : A → B)
    (l : list A) (acc : list B) :
  (∀ acc x, g acc x = acc ++ [f x]) →
  fold_left g l acc = acc ++ (f <$> l).
Proof.
  intros Hg. revert acc. induction l as [|x l IH]; intros acc; simpl.
  - by rewrite app_nil_r.
  - rewrite IH, Hg. by rewrite <- app_assoc.
Qed.
End Loops.

Lemma nombres_categorias_fmap (lista_prod_cat : list node) :
  nombres_categorias lista_prod_cat =
    ((fun producto => celda_texto (findAll producto "a" (Some "title"))) <$> lista_prod_cat,
     (fun producto => celda_texto (findAll producto "a" (Some "tag"))) <$> lista_prod_cat).
Proof.
  unfold nombres_categorias.
  cut (∀ ns cs : list cell,
    fold_left
      (fun '(nombres_productos, categorias_productos) producto =>
         (try_except (x ← item0 (findAll producto "a" (Some "title")); mret (getText x))
            (fun nombre => nombres_productos ++ [Str nombre])
            (nombres_productos ++ [NaN]),
          try_except (x ← item0 (findAll producto "a" (Some "tag")); mret (getText x))
            (fun categoria => categorias_productos ++ [Str categoria])
            (categorias_productos ++ [NaN])))
      lista_prod_cat (ns, cs) =
    (ns ++ ((fun producto => celda_texto (findAll producto "a" (Some "title"))) <$> lista_prod_cat),
     cs ++ ((fun producto => celda_texto (findAll producto "a" (Some "tag"))) <$> lista_prod_cat))).
  { intros H. apply (H [] []). }
  induction lista_prod_cat as [|producto l IH]; intros ns cs; simpl.
  - by rewrite !app_nil_r.
  - rewrite IH. f_equal.
    + destruct (findAll producto "a" (Some "title")); simpl;
        by rewrite <- app_assoc.
    + destruct (findAll producto "a" (Some "tag")); simpl;
        by rewrite <- app_assoc.
Qed.

Lemma secciones_fmap (lista_secciones : list node) :
  secciones lista_secciones = celda_seccion <$> lista_secciones.
Proof.
  unfold secciones. apply (fold_left_append _ celda_seccion).
  intros acc seccion. unfold celda_seccion.
  by destruct (1 <? String.length (getText seccion))%nat.
Qed.

Lemma descripciones_fmap (lista_descripciones : list node) :
  descripciones lista_descripciones =
    take page_size ((fun descripcion => Str (getText descripcion)) <$> lista_descripciones).
Proof.
  unfold descripciones.
  by rewrite (fold_left_append _ (fun descripcion => Str (getText descripcion))).
Qed.

Lemma imagenes_fmap (lista_imagenes : list node) :
  imagenes lista_imagenes = celda_imagen <$> lista_imagenes.
Proof.
  unfold imagenes. apply (fold_left_append _ celda_imagen).
  intros acc imagen. unfold celda_imagen.
  by destruct (findAll imagen "img" None).
Qed.

Lemma llenar_diccionario_columnas (sopa : node) :
  llenar_diccionario (Some sopa) =
    pd_DataFrame (nombres_productos sopa) (categorias_productos sopa)
                 (descripciones_productos sopa) (secciones_productos sopa)
                 (imagenes_productos sopa).
Proof.
  unfold llenar_diccionario, nombres_productos, categorias_productos.
  by destruct (nombres_categorias _).
Qed.

(** The constructor of the table returns exactly when the five lists have
    one length, and then keeps them as its columns. *)
Lemma pd_DataFrame_Ok (ns cs ds ss us : list cell) :
  length cs = length ns → length ds = length ns →
  length ss = length ns → length us = length ns →
  pd_DataFrame ns cs ds ss us = Ok (mkDataFrame ns cs ds ss us).
Proof.
  intros H1 H2 H3 H4. unfold pd_DataFrame.
  by rewrite H1, H2, H3, H4, !Nat.eqb_refl.
Qed.

Lemma pd_DataFrame_Raise (ns cs ds ss us : list cell) :
  ¬ (length cs = length ns ∧ length ds = length ns ∧
     length ss = length ns ∧ length us = length ns) →
  pd_DataFrame ns cs ds ss us = Raise (ValueError "All arrays must be of the same length").
Proof.
  intros H. unfold pd_DataFrame.
  destruct (length cs =? length ns)%nat eqn:E1; [|done].
  destruct (length ds =? length ns)%nat eqn:E2; [|done].
  destruct (length ss =? length ns)%nat eqn:E3; [|done].
  destruct (length us =? length ns)%nat eqn:E4; [|done].
  apply Nat.eqb_eq in E1, E2, E3, E4. tauto.
Qed.

Lemma pd_DataFrame_inv (ns cs ds ss us : list cell) (df : DataFrame) :
  pd_DataFrame ns cs ds ss us = Ok df →
  df = mkDataFrame ns cs ds ss us ∧
  length cs = length ns ∧ length ds = length ns ∧
  length ss = length ns ∧ length us = length ns.
Proof.
  unfold pd_DataFrame.
  destruct (length cs =? length ns)%nat eqn:E1; [|done].
  destruct (length ds =? length ns)%nat eqn:E2; [|done].
  destruct (length ss =? length ns)%nat eqn:E3; [|done].
  destruct (length us =? length ns)%nat eqn:E4; [|done].
  apply Nat.eqb_eq in E1, E2, E3, E4. simpl. intros [= <-]. auto.
Qed.

Lemma length_nombres_productos (sopa : node) :
  length (nombres_productos sopa) =
    length (findAll sopa "div" (Some "product-slide-entry shift-image")).
Proof.
  unfold nombres_productos. rewrite nombres_categorias_fmap. simpl.
  by rewrite length_fmap.
Qed.

Lemma length_categorias_productos (sopa : node) :
  length (categorias_productos sopa) =
    length (findAll sopa "div" (Some "product-slide-entry shift-image")).
Proof.
  unfold categorias_productos. rewrite nombres_categorias_fmap. simpl.
  by rewrite length_fmap.
Qed.

Lemma length_secciones_productos (sopa : node) :
  length (secciones_productos sopa) = length (findAll sopa "div" (Some "cat-sec-box")).
Proof. unfold secciones_productos. by rewrite secciones_fmap, length_fmap. Qed.

Lemma length_imagenes_productos (sopa : node) :
  length (imagenes_productos sopa) = length (findAll sopa "div" (Some "product-image")).
Proof. unfold imagenes_productos. by rewrite imagenes_fmap, length_fmap. Qed.

Lemma length_descripciones_productos (sopa : node) :
  length (descripciones_productos sopa) =
    (page_size `min` length (findAll sopa "p" None))%nat.
Proof.
  unfold descripciones_productos.
  by rewrite descripciones_fmap, length_take, length_fmap.
Qed.

(** ** The extraction loop of the orchestrator *)

Lemma extraer_fold (sopas : list (option node)) (df_list : list DataFrame) (w : world) :
  (fold_left
     (fun '(df_list, w) sopa =>
        try_except (llenar_diccionario sopa)
          (fun df_atrezzo => (df_list ++ [df_atrezzo], w))
          (df_list, print_line "No se ha añadido la página" w))
     sopas (df_list, w)).1 = df_list ++ tablas sopas
  ∧ requests
      (fold_left
         (fun '(df_list, w) sopa =>
            try_except (llenar_diccionario sopa)
              (fun df_atrezzo => (df_list ++ [df_atrezzo], w))
              (df_list, print_line "No se ha añadido la página" w))
         sopas (df_list, w)).2 = requests w.
Proof.
  revert df_list w. induction sopas as [|sopa sopas IH]; intros df_list w; simpl.
  - by rewrite app_nil_r.
  - unfold tablas. simpl. fold (tablas sopas).
    destruct (llenar_diccionario sopa) as [df|e]; simpl.
    + destruct (IH (df_list ++ [df]) w) as [-> ->]. by rewrite <- app_assoc.
    + by destruct (IH df_list (print_line "No se ha añadido la página" w)) as [-> ->].
Qed.

(** The loop keeps the tables of the documents whose extraction succeeds. *)
Lemma extraer_tablas (sopas : list (option node)) (w : world) :
  (extraer sopas w).1 = tablas sopas.
Proof. unfold extraer. by destruct (extraer_fold sopas [] w) as [-> _]. Qed.

Lemma extraer_requests (sopas : list (option node)) (w : world) :
  requests (extraer sopas w).2 = requests w.
Proof. unfold extraer. by destruct (extraer_fold sopas [] w) as [_ ->]. Qed.

Lemma tablas_cons (sopa : option node) (sopas : list (option node)) :
  tablas (sopa :: sopas) =
    match llenar_diccionario sopa with
    | Ok df => df :: tablas sopas
    | Raise _ => tablas sopas
    end.
Proof. unfold tablas. simpl. by destruct (llenar_diccionario sopa). Qed.

Lemma tablas_app (l1 l2 : list (option node)) :
  tablas (l1 ++ l2) = tablas l1 ++ tablas l2.
Proof. unfold tablas. apply omap_app. Qed.

(** Each page whose extraction raises leaves one line on the output. *)
Lemma extraer_stdout (sopas : list (option node)) (w : world) (sopa : option node) (e : exn) :
  sopa ∈ sopas → llenar_diccionario sopa = Raise e →
  "No se ha añadido la página" ∈ stdout (extraer sopas w).2.
Proof.
  unfold extraer. intros Hin Hraise.
  cut (∀ df_list w,
    "No se ha añadido la página" ∈ stdout
      (fold_left
         (fun '(df_list, w) sopa =>
            try_except (llenar_diccionario sopa)
              (fun df_atrezzo => (df_list ++ [df_atrezzo], w))
              (df_list, print_line "No se ha añadido la página" w))
         sopas (df_list, w)).2).
  { intros H. apply H. }
  assert (Hkeep : ∀ l df_list w,
    "No se ha añadido la página" ∈ stdout w →
    "No se ha añadido la página" ∈ stdout
      (fold_left
         (fun '(df_list, w) sopa =>
            try_except (llenar_diccionario sopa)
              (fun df_atrezzo => (df_list ++ [df_atrezzo], w))
              (df_list, print_line "No se ha añadido la página" w))
         l (df_list, w)).2).
  { induction l as [|x l IH]; intros df_list w' Hw; simpl; [done|].
    destruct (llenar_diccionario x); simpl; apply IH; [done|].
    simpl. apply elem_of_app. by left. }
  induction Hin as [sopa sopas|sopa x sopas Hin IH]; intros df_list w'; simpl.
  - rewrite Hraise. simpl. apply Hkeep. simpl. apply elem_of_app. right.
    apply list_elem_of_singleton. done.
  - destruct (llenar_diccionario x); simpl; by apply IH.
Qed.

(** Entry [i] of the name, category and image lists comes from block [i]
    of the list the loop runs over. *)
Lemma campos_lookup (sopa : node) :
  (∀ (i : nat) (producto : node),
     findAll sopa "div" (Some "product-slide-entry shift-image") !! i = Some producto →
     nombres_productos sopa !! i =
       Some (celda_texto (findAll producto "a" (Some "title"))) ∧
     categorias_productos sopa !! i =
       Some (celda_texto (findAll producto "a" (Some "tag")))) ∧
  (∀ (i : nat) (imagen : node),
     findAll sopa "div" (Some "product-image") !! i = Some imagen →
     imagenes_productos sopa !! i = Some (celda_imagen imagen)).
Proof.
  split.
  - intros i producto Hi.
    unfold nombres_productos, categorias_productos.
    rewrite nombres_categorias_fmap. simpl.
    by rewrite !list_lookup_fmap, Hi.
  - intros i imagen Hi. unfold imagenes_productos.
    by rewrite imagenes_fmap, list_lookup_fmap, Hi.
Qed.

(** ** The record extractor against its specification *)

(** C6. For every parsed document, the Record Extractor hands the
    constructor of the table, as its description list, the text of the
    paragraph elements in document order cut to the first 48: entry [i]
    below 48 is the text of paragraph [i], nothing is kept from index 48 on,
    and with 48 paragraphs or fewer all of them are kept in order.  The
    description column of the table it returns is that list. *)
Theorem descripciones_first_48 (sopa : node) :
  let parrafos := findAll sopa "p" None in
  llenar_diccionario (Some sopa) =
    pd_DataFrame (nombres_productos sopa) (categorias_productos sopa)
                 (descripciones_productos sopa) (secciones_productos sopa)
                 (imagenes_productos sopa) ∧
  descripciones_productos sopa =
    take 48 ((fun p => Str (getText p)) <$> parrafos) ∧
  length (descripciones_productos sopa) = (48 `min` length parrafos)%nat ∧
  (∀ (i : nat) (p : node), (i < 48)%nat → parrafos !! i = Some p →
     descripciones_productos sopa !! i = Some (Str (getText p))) ∧
  (∀ i : nat, (48 ≤ i)%nat → descripciones_productos sopa !! i = None) ∧
  ((length parrafos ≤ 48)%nat →
     descripciones_productos sopa = (fun p => Str (getText p)) <$> parrafos) ∧
  (∀ df : DataFrame, llenar_diccionario (Some sopa) = Ok df →
     descripcion df = take 48 ((fun p => Str (getText p)) <$> parrafos) ∧
     (∀ (i : nat) (p : node), (i < 48)%nat → parrafos !! i = Some p →
        descripcion df !! i = Some (Str (getText p))) ∧
     (∀ i : nat, (48 ≤ i)%nat → descripcion df !! i = None) ∧
     ((length parrafos ≤ 48)%nat →
        descripcion df = (fun p => Str (getText p)) <$> parrafos)).
Proof.
  intros parrafos.
  assert (Heq : descripciones_productos sopa =
                take 48 ((fun p => Str (getText p)) <$> parrafos))
    by apply descripciones_fmap.
  assert (Hlt : ∀ (i : nat) (p : node), (i < 48)%nat → parrafos !! i = Some p →
                descripciones_productos sopa !! i = Some (Str (getText p))).
  { intros i p Hi Hp. rewrite Heq, lookup_take_lt by done.
    by rewrite list_lookup_fmap, Hp. }
  assert (Hge : ∀ i : nat, (48 ≤ i)%nat → descripciones_productos sopa !! i = None).
  { intros i Hi. rewrite Heq. by apply lookup_take_ge. }
  assert (Hall : (length parrafos ≤ 48)%nat →
                 descripciones_productos sopa = (fun p => Str (getText p)) <$> parrafos).
  { intros Hlen. rewrite Heq. apply take_ge. by rewrite length_fmap. }
  split; [apply llenar_diccionario_columnas|].
  split; [done|]. split; [apply length_descripciones_productos|].
  split; [exact Hlt|]. split; [exact Hge|]. split; [exact Hall|].
  intros df Hdf. rewrite llenar_diccionario_columnas in Hdf.
  apply pd_DataFrame_inv in Hdf as [-> _]. simpl.
  split; [exact Heq|]. split; [exact Hlt|]. split; [exact Hge|exact Hall].
Qed.

Lemma descripciones_first_48_witness :
  descripciones_productos doc_48_productos !! 47%nat = Some (Str "Silla de madera tallada") ∧
  descripciones_productos doc_48_productos !! 48%nat = None ∧
  descripciones_productos doc_tres =
    [Str "Silla de madera tallada"; Str "Mesa baja"; Str "Espejo dorado"] ∧
  ∃ df : DataFrame,
    llenar_diccionario (Some doc_48_productos) = Ok df ∧
    descripcion df !! 47%nat = Some (Str "Silla de madera tallada") ∧
    descripcion df !! 48%nat = None.
Proof.
  destruct (descripciones_first_48 doc_48_productos) as (_ & _ & _ & Hlt & Hge & _ & Hdf).
  destruct (descripciones_first_48 doc_tres) as (_ & _ & _ & _ & _ & Hall & _).
  refine (conj _ (conj _ (conj _ _))).
  - apply (Hlt 47%nat (parrafo "Silla de madera tallada")); [lia|reflexivity].
  - apply (Hge 48%nat). lia.
  - apply Hall. simpl. lia.
  - assert (Hok : ∃ df, llenar_diccionario (Some doc_48_productos) = Ok df)
      by (eexists; vm_compute; reflexivity).
    destruct Hok as [df Hok]. exists df. split; [exact Hok|].
    destruct (Hdf df Hok) as (_ & Hlt' & Hge' & _). split.
    + apply (Hlt' 47%nat (parrafo "Silla de madera tallada")); [lia|reflexivity].
    + apply (Hge' 48%nat). lia.
Defined.

(** C7. For every section block of a parsed document, the section value
    the Record Extractor hands the constructor of the table at the position
    of the block is the text of the block when that text is longer than one
    character, and null when its length is 1 or 0.  The section column of
    the table it returns holds that value at that position. *)
Theorem seccion_length_rule (sopa : node) (i : nat) (bloque : node) :
  findAll sopa "div" (Some "cat-sec-box") !! i = Some bloque →
  llenar_diccionario (Some sopa) =
    pd_DataFrame (nombres_productos sopa) (categorias_productos sopa)
                 (descripciones_productos sopa) (secciones_productos sopa)
                 (imagenes_productos sopa) ∧
  ((1 < String.length (getText bloque))%nat →
     secciones_productos sopa !! i = Some (Str (getText bloque))) ∧
  ((String.length (getText bloque) ≤ 1)%nat →
     secciones_productos sopa !! i = Some NaN ∧ is_null NaN = true) ∧
  (∀ df : DataFrame, llenar_diccionario (Some sopa) = Ok df →
     ((1 < String.length (getText bloque))%nat →
        seccion df !! i = Some (Str (getText bloque))) ∧
     ((String.length (getText bloque) ≤ 1)%nat →
        seccion df !! i = Some NaN)).
Proof.
  intros Hi.
  assert (Hcell : secciones_productos sopa !! i = Some (celda_seccion bloque)).
  { unfold secciones_productos. by rewrite secciones_fmap, list_lookup_fmap, Hi. }
  assert (Hlong : (1 < String.length (getText bloque))%nat →
                  secciones_productos sopa !! i = Some (Str (getText bloque))).
  { intros Hlen. rewrite Hcell. unfold celda_seccion.
    by rewrite (proj2 (Nat.ltb_lt _ _) Hlen). }
  assert (Hshort : (String.length (getText bloque) ≤ 1)%nat →
                   secciones_productos sopa !! i = Some NaN).
  { intros Hlen. rewrite Hcell. unfold celda_seccion.
    by rewrite (proj2 (Nat.ltb_ge _ _) Hlen). }
  split; [apply llenar_diccionario_columnas|].
  split; [exact Hlong|]. split; [by split; [apply Hshort|]|].
  intros df Hdf. rewrite llenar_diccionario_columnas in Hdf.
  apply pd_DataFrame_inv in Hdf as [-> _]. simpl.
  split; [exact Hlong|exact Hshort].
Qed.

Lemma seccion_length_rule_witness :
  secciones_productos doc_tres !! 0%nat = Some (Str "Comedor") ∧
  secciones_productos doc_tres !! 1%nat = Some NaN ∧
  ∃ df : DataFrame,
    llenar_diccionario (Some doc_tres) = Ok df ∧
    seccion df !! 0%nat = Some (Str "Comedor") ∧
    seccion df !! 1%nat = Some NaN.
Proof.
  destruct (seccion_length_rule doc_tres 0
              (Tag "div" ["cat-sec-box"] [] [NavigableString "Comedor"]) eq_refl)
    as (_ & Hlong & _ & Hdf0).
  destruct (seccion_length_rule doc_tres 1
              (Tag "div" ["cat-sec-box"] [] [NavigableString " "]) eq_refl)
    as (_ & _ & Hshort & Hdf1).
  assert (Hok : ∃ df, llenar_diccionario (Some doc_tres) = Ok df)
    by (eexists; vm_compute; reflexivity).
  destruct Hok as [df Hok].
  refine (conj _ (conj _ _)).
  - apply Hlong. simpl. lia.
  - apply Hshort. simpl. lia.
  - exists df. split; [exact Hok|]. split.
    + apply (Hdf0 df Hok). simpl. lia.
    + apply (Hdf1 df Hok). simpl. lia.
Defined.




(** C4, as the specification states it, fails: a document with one product block
    and 48 paragraphs gives no table with one row, the constructor of the
    table raises. *)
Lemma page_table_rows_counterexample :
  length (findAll doc_un_producto_48_parrafos "div"
            (Some "product-slide-entry shift-image")) = 1%nat ∧
  (48 ≤ length (findAll doc_un_producto_48_parrafos "p" None))%nat ∧
  llenar_diccionario (Some doc_un_producto_48_parrafos) =
    Raise (ValueError "All arrays must be of the same length") ∧
  ¬ ∃ df : DataFrame,
      llenar_diccionario (Some doc_un_producto_48_parrafos) = Ok df ∧
      nrows df = length (findAll doc_un_producto_48_parrafos "div"
                           (Some "product-slide-entry shift-image")).
Proof.
  assert (Hraise : llenar_diccionario (Some doc_un_producto_48_parrafos) =
                   Raise (ValueError "All arrays must be of the same length"))
    by (vm_compute; reflexivity).
  split; [vm_compute; reflexivity|].
  split; [vm_compute; lia|].
  split; [exact Hraise|].
  intros (df & Hdf & _). rewrite Hraise in Hdf. discriminate.
Qed.

(** C4, amended.  For every parsed document with [k] product blocks and at
    least 48 paragraph elements: when [k] is 48 and the document has 48
    section blocks and 48 image containers, the extractor returns a table
    with exactly [k] rows, the name and the category of row [i] taken from
    the [i]-th product block and the image URL of row [i] from the [i]-th
    image container, in document order; in every other case the constructor
    of the table raises. *)
Theorem page_table_rows (sopa : node) :
  let productos := findAll sopa "div" (Some "product-slide-entry shift-image") in
  let contenedores := findAll sopa "div" (Some "product-image") in
  let k := length productos in
  (48 ≤ length (findAll sopa "p" None))%nat →
  (k = 48%nat ∧ length (findAll sopa "div" (Some "cat-sec-box")) = 48%nat ∧
   length contenedores = 48%nat →
     ∃ df : DataFrame,
       llenar_diccionario (Some sopa) = Ok df ∧ nrows df = k ∧
       ∀ i : nat, (i < k)%nat →
         ∃ producto imagen : node,
           productos !! i = Some producto ∧ contenedores !! i = Some imagen ∧
           nombre df !! i = Some (celda_texto (findAll producto "a" (Some "title"))) ∧
           categoria df !! i = Some (celda_texto (findAll producto "a" (Some "tag"))) ∧
           url df !! i = Some (celda_imagen imagen)) ∧
  (¬ (k = 48%nat ∧ length (findAll sopa "div" (Some "cat-sec-box")) = 48%nat ∧
      length contenedores = 48%nat) →
     llenar_diccionario (Some sopa) =
       Raise (ValueError "All arrays must be of the same length")).
Proof.
  intros productos contenedores k Hp.
  pose proof (length_nombres_productos sopa) as Hn.
  pose proof (length_categorias_productos sopa) as Hc.
  pose proof (length_secciones_productos sopa) as Hs.
  pose proof (length_imagenes_productos sopa) as Hu.
  pose proof (length_descripciones_productos sopa) as Hd.
  fold productos in Hn, Hc. fold k in Hn, Hc. fold contenedores in Hu.
  unfold page_size in Hd.
  rewrite llenar_diccionario_columnas. split.
  - intros (Hk & Hsec & Himg).
    rewrite pd_DataFrame_Ok by lia.
    eexists. split; [reflexivity|]. split; [exact Hn|].
    intros i Hi. simpl.
    destruct (lookup_lt_is_Some_2 productos i) as [producto Hprod]; [by fold k|].
    destruct (lookup_lt_is_Some_2 contenedores i) as [imagen Hcont]; [lia|].
    exists producto, imagen.
    destruct (campos_lookup sopa) as (Hprods & Himgs).
    destruct (Hprods i producto Hprod) as (H1 & H2).
    by rewrite H1, H2, (Himgs i imagen Hcont).
  - intros Hne. apply pd_DataFrame_Raise. lia.
Qed.

Lemma page_table_rows_witness :
  ∃ df : DataFrame,
    llenar_diccionario (Some doc_48_productos) = Ok df ∧ nrows df = 48%nat ∧
    nombre df !! 47%nat = Some (Str "Silla Luis XV") ∧
    url df !! 47%nat = Some (Str "admin/img_prod/silla.jpg").
Proof.
  assert (Hp : (48 ≤ length (findAll doc_48_productos "p" None))%nat)
    by (vm_compute; lia).
  destruct (page_table_rows doc_48_productos Hp) as [Hok _].
  destruct Hok as (df & Hdf & Hrows & Hrow).
  { vm_compute. auto. }
  exists df. split; [exact Hdf|]. split; [exact Hrows|].
  destruct (Hrow 47%nat) as (producto & imagen & Hprod & Himg & Hn & _ & Hu).
  { vm_compute. lia. }
  vm_compute in Hprod, Himg.
  injection Hprod as <-. injection Himg as <-.
  split; [exact Hn|exact Hu].
Defined.

(** C5. Whenever the five lists of a document do not all have the same
    length, the constructor of the table raises, and the extraction loop of
    the orchestrator drops the page: it prints its message, and the tables
    it keeps, hence what it hands to the aggregator, are those of the run
    without that page.  Nothing of the page is kept, padded or partial. *)
Theorem mismatched_page_dropped (sopa : node) (antes despues : list (option node))
    (w : world) :
  ¬ (length (categorias_productos sopa) = length (nombres_productos sopa) ∧
     length (descripciones_productos sopa) = length (nombres_productos sopa) ∧
     length (secciones_productos sopa) = length (nombres_productos sopa) ∧
     length (imagenes_productos sopa) = length (nombres_productos sopa)) →
  llenar_diccionario (Some sopa) =
    Raise (ValueError "All arrays must be of the same length") ∧
  (extraer (antes ++ Some sopa :: despues) w).1 = (extraer (antes ++ despues) w).1 ∧
  concat_df (extraer (antes ++ Some sopa :: despues) w).1 =
    concat_df (extraer (antes ++ despues) w).1 ∧
  "No se ha añadido la página" ∈ stdout (extraer (antes ++ Some sopa :: despues) w).2.
Proof.
  intros Hne.
  assert (Hraise : llenar_diccionario (Some sopa) =
                   Raise (ValueError "All arrays must be of the same length")).
  { rewrite llenar_diccionario_columnas. by apply pd_DataFrame_Raise. }
  assert (Hsame : (extraer (antes ++ Some sopa :: despues) w).1 =
                  (extraer (antes ++ despues) w).1).
  { rewrite !extraer_tablas, !tablas_app. f_equal.
    by rewrite tablas_cons, Hraise. }
  split; [exact Hraise|]. split; [exact Hsame|]. split; [by rewrite Hsame|].
  eapply (extraer_stdout _ _ (Some sopa)); [|exact Hraise].
  apply elem_of_app. right. apply list_elem_of_here.
Qed.

Lemma mismatched_page_dropped_witness :
  llenar_diccionario (Some doc_error) =
    Raise (ValueError "All arrays must be of the same length") ∧
  (extraer [Some doc_uno; Some doc_error; Some doc_tres] mundo_inicial).1 =
    (extraer [Some doc_uno; Some doc_tres] mundo_inicial).1.
Proof.
  destruct (mismatched_page_dropped doc_error [Some doc_uno] [Some doc_tres]
              mundo_inicial) as (Hraise & Hsame & _).
  { vm_compute. intros (_ & H & _). discriminate H. }
  split; [exact Hraise|exact Hsame].
Defined.

(** ** The event loop *)

Section EventLoop.
Variable session : string → option response.

Section Tasks.
Context {A : Type}.
Implicit Types (c : coro A) (t : task A) (w : world).

Lemma advance_outcome c w :
  task_outcome session (advance c w).1 = run_alone session c.
Proof. revert w. induction c; intros w; simpl; auto. Qed.

(** A turn of the loop does not change the result a task is heading to. *)
Lemma resume_outcome t w :
  task_outcome session (resume session t w).1 = task_outcome session t.
Proof.
  destruct t as [c|u k|r k|r]; simpl; auto using advance_outcome.
  destruct (session u); simpl; auto using advance_outcome.
Qed.

Lemma advance_turns c w : turns_left session (advance c w).1 = awaits session c.
Proof. revert w. induction c; intros w; simpl; auto. Qed.

(** Each turn brings a task one step closer to its end. *)
Lemma resume_turns t w :
  turns_left session (resume session t w).1 = pred (turns_left session t).
Proof.
  destruct t as [c|u k|r k|r]; simpl; auto using advance_turns.
  destruct (session u); simpl; auto using advance_turns.
Qed.

Lemma turns_left_0 t :
  turns_left session t = 0%nat → raised_by t = None →
  ∃ a, t = Finished (Ok a).
Proof.
  destruct t as [c|u k|r k|[a|e]]; simpl; try discriminate; eauto.
Qed.

Lemma advance_sends_nothing c w :
  sends_nothing c = true →
  requests (advance c w).2 = requests w ∧
  task_sends_nothing session (advance c w).1 = true.
Proof.
  revert w. induction c; intros w Hc; simpl in *; auto; try discriminate.
  destruct (IHc (print_line line w) Hc) as [-> ->]. done.
Qed.

(** A task that sends nothing leaves the list of requests as it is. *)
Lemma resume_sends_nothing t w :
  task_sends_nothing session t = true →
  requests (resume session t w).2 = requests w ∧
  task_sends_nothing session (resume session t w).1 = true.
Proof.
  destruct t as [c|u k|r k|r]; simpl; auto using advance_sends_nothing.
  destruct (session u); simpl; auto using advance_sends_nothing.
Qed.

(** The loop, one turn at a time. *)
Lemma run_loop_cons (tasks : list (task A)) (i : nat) (sched : list nat) w :
  run_loop session tasks (i :: sched) w =
    match tasks !! i with
    | None => run_loop session tasks sched w
    | Some t =>
        match raised_by (resume session t w).1 with
        | Some e => Raised e (resume session t w).2
        | None =>
            run_loop session (<[i := (resume session t w).1]> tasks) sched
                     (resume session t w).2
        end
    end.
Proof.
  simpl. destruct (tasks !! i) as [t|]; [|done].
  destruct (resume session t w) as [t' w']. simpl.
  by destruct t' as [?|??|??|[?|?]].
Qed.

Lemma run_loop_app (tasks : list (task A)) (s1 s2 : list nat) w :
  run_loop session tasks (s1 ++ s2) w =
    match run_loop session tasks s1 w with
    | Running tasks' w' => run_loop session tasks' s2 w'
    | Raised e w' => Raised e w'
    end.
Proof.
  revert tasks w. induction s1 as [|i s1 IH]; intros tasks w; [done|].
  rewrite <- app_comm_cons, !run_loop_cons.
  destruct (tasks !! i) as [t|]; [|apply IH].
  destruct (raised_by _); [done|apply IH].
Qed.

Lemma run_loop_nil_tasks (sched : list nat) w :
  run_loop session (@nil (task A)) sched w = Running [] w.
Proof. induction sched as [|i sched IH]; [done|]. by rewrite run_loop_cons. Qed.

(** Whatever the schedule, the tasks keep heading to the results they
    would have on their own; and an exception that stops the loop is the
    result of one of them. *)
Lemma run_loop_outcome (sched : list nat) (tasks : list (task A)) w :
  match run_loop session tasks sched w with
  | Running tasks' _ =>
      task_outcome session <$> tasks' = task_outcome session <$> tasks
  | Raised e _ =>
      ∃ (i : nat) t, tasks !! i = Some t ∧ task_outcome session t = Raise e
  end.
Proof.
  revert tasks w. induction sched as [|i sched IH]; intros tasks w; [done|].
  rewrite run_loop_cons. destruct (tasks !! i) as [t|] eqn:Hi; [|apply IH].
  pose proof (resume_outcome t w) as Hout.
  destruct (resume session t w) as [t' w']. simpl in *.
  destruct (raised_by t') as [e|] eqn:Hr.
  - exists i, t. split; [done|]. rewrite <- Hout.
    by destruct t' as [?|??|??|[?|?]]; simplify_eq/=.
  - specialize (IH (<[i:=t']> tasks) w').
    destruct (run_loop session (<[i:=t']> tasks) sched w') as [tasks' w''|e w''].
    + rewrite IH, list_fmap_insert, Hout. apply list_insert_id.
      by rewrite list_lookup_fmap, Hi.
    + destruct IH as (j & t'' & Hj & Ht'').
      destruct (decide (i = j)) as [->|Hij].
      * rewrite list_lookup_insert_eq in Hj by (by eapply lookup_lt_Some).
        simplify_eq. exists j, t. by rewrite <- Hout.
      * rewrite list_lookup_insert_ne in Hj by done. by exists j, t''.
Qed.

(** No task of a running loop has ended with an exception. *)
Lemma run_loop_raised_by (sched : list nat) (tasks : list (task A)) w :
  Forall (λ t, raised_by t = None) tasks →
  match run_loop session tasks sched w with
  | Running tasks' _ => Forall (λ t, raised_by t = None) tasks'
  | Raised _ _ => True
  end.
Proof.
  revert tasks w. induction sched as [|i sched IH]; intros tasks w Hall; [done|].
  rewrite run_loop_cons. destruct (tasks !! i) as [t|] eqn:Hi; [|by apply IH].
  destruct (raised_by _) eqn:Hr; [done|].
  apply IH. by apply Forall_insert.
Qed.

(** A schedule that gives every task the turns it needs ends with every
    task finished, unless an exception stops the loop. *)
Lemma run_loop_progress (sched : list nat) (tasks : list (task A)) w :
  (∀ (i : nat) t, tasks !! i = Some t →
     (turns_left session t ≤ count_occ Nat.eq_dec sched i)%nat) →
  match run_loop session tasks sched w with
  | Running tasks' _ => Forall (λ t, turns_left session t = 0%nat) tasks'
  | Raised _ _ => True
  end.
Proof.
  revert tasks w. induction sched as [|i sched IH]; intros tasks w Hturns.
  - simpl. apply Forall_lookup. intros j t Hj.
    specialize (Hturns j t Hj). simpl in Hturns. lia.
  - rewrite run_loop_cons. destruct (tasks !! i) as [t|] eqn:Hi.
    + destruct (raised_by _) eqn:Hr; [done|].
      apply IH. intros j t' Hj.
      destruct (decide (i = j)) as [->|Hij].
      * rewrite list_lookup_insert_eq in Hj by (by eapply lookup_lt_Some).
        simplify_eq. rewrite resume_turns.
        specialize (Hturns j t Hi). simpl in Hturns.
        destruct (Nat.eq_dec j j); [lia|done].
      * rewrite list_lookup_insert_ne in Hj by done.
        specialize (Hturns j t' Hj). simpl in Hturns.
        destruct (Nat.eq_dec i j); [done|lia].
    + apply IH. intros j t' Hj. specialize (Hturns j t' Hj).
      simpl in Hturns. destruct (Nat.eq_dec i j); [congruence|lia].
Qed.

(** Tasks that send nothing leave the list of requests as it is. *)
Lemma run_loop_requests (sched : list nat) (tasks : list (task A)) w :
  Forall (λ t, task_sends_nothing session t = true) tasks →
  requests (loop_world (run_loop session tasks sched w)) = requests w.
Proof.
  revert tasks w. induction sched as [|i sched IH]; intros tasks w Hall; [done|].
  rewrite run_loop_cons. destruct (tasks !! i) as [t|] eqn:Hi; [|by apply IH].
  destruct (resume_sends_nothing t w) as [Hreq Hquiet].
  { by eapply (proj1 (Forall_lookup _ _) Hall). }
  destruct (raised_by _); [done|].
  rewrite IH; [done|]. by apply Forall_insert.
Qed.

End Tasks.
End EventLoop.

(** ** Gathering *)

Lemma result_all_fmap_Ok {A : Type} (vs : list A) : result_all (Ok <$> vs) = Ok vs.
Proof.
  induction vs as [|v vs IH]; [done|].
  rewrite fmap_cons. cbn [result_all]. by rewrite IH.
Qed.

Lemma result_all_Raise {A : Type} (l : list (result A)) (e : exn) :
  result_all l = Raise e → Raise e ∈ l.
Proof.
  induction l as [|[a|e'] l IH]; simpl; [done| |].
  - destruct (result_all l) as [vs|e'']; simpl; [done|].
    intros [= ->]. apply list_elem_of_further. by apply IH.
  - intros [= ->]. apply list_elem_of_here.
Qed.

Lemma result_all_elem_Raise {A : Type} (l : list (result A)) (e : exn) :
  Raise e ∈ l → ∃ e', result_all l = Raise e'.
Proof.
  induction l as [|[a|e'] l IH]; simpl.
  - by intros ?%elem_of_nil.
  - intros [?|Hin]%elem_of_cons; [done|].
    destruct (IH Hin) as [e'' ->]. by exists e''.
  - intros _. by exists e'.
Qed.

Lemma count_occ_seq (n i : nat) :
  (i < n)%nat → count_occ Nat.eq_dec (seq 0 n) i = 1%nat.
Proof.
  intros Hi. apply NoDup_count_occ'; [apply seq_NoDup|].
  apply in_seq. lia.
Qed.

Section Gather.
Variable session : string → option response.
Context {A : Type}.

Lemma task_value_outcome (tasks : list (task A)) (vs : list A) :
  mapM task_value tasks = Some vs →
  Ok <$> vs = task_outcome session <$> tasks.
Proof.
  rewrite mapM_Some. induction 1 as [|t v tasks vs Hv _ IH]; [done|].
  rewrite !fmap_cons, IH. f_equal.
  by destruct t as [?|??|??|[?|?]]; simplify_eq/=.
Qed.

(** When [gather] returns, it returns the results of the coroutines in the
    order they were given; when it raises, it raises what one of them
    raises. *)
Lemma gather_sound (coros : list (coro A)) (sched : list nat) (w : world) :
  match (gather session coros sched w).1 with
  | None => True
  | Some (Ok vs) => Ok <$> vs = run_alone session <$> coros
  | Some (Raise e) => ∃ c, c ∈ coros ∧ run_alone session c = Raise e
  end.
Proof.
  unfold gather.
  pose proof (run_loop_outcome session (seq 0 (length coros) ++ sched)
                (Ready <$> coros) w) as Hout.
  destruct (run_loop _ _ _ _) as [tasks' w'|e w']; simpl.
  - destruct (mapM task_value tasks') as [vs|] eqn:Hvs; simpl; [|done].
    rewrite (task_value_outcome _ _ Hvs), Hout.
    by rewrite <- list_fmap_compose.
  - destruct Hout as (i & t & Hi & Ht).
    rewrite list_lookup_fmap in Hi.
    destruct (coros !! i) as [c|] eqn:Hc; simplify_eq/=.
    exists c. split; [by eapply list_elem_of_lookup_2|done].
Qed.

(** [gather] is over once every task has had the turns it needs. *)
Lemma gather_complete (coros : list (coro A)) (sched : list nat) (w : world) :
  (∀ (i : nat) c, coros !! i = Some c →
     (awaits session c ≤ count_occ Nat.eq_dec sched i)%nat) →
  is_Some (gather session coros sched w).1.
Proof.
  intros Hfair. unfold gather.
  pose proof (run_loop_progress session (seq 0 (length coros) ++ sched)
                (Ready <$> coros) w) as Hprog.
  pose proof (run_loop_raised_by session (seq 0 (length coros) ++ sched)
                (Ready <$> coros) w) as Hraise.
  destruct (run_loop _ _ _ _) as [tasks' w'|e w']; simpl; [|by eexists].
  apply fmap_is_Some, mapM_is_Some, Forall_lookup. intros i t Hi.
  assert (Hturn : turns_left session t = 0%nat).
  { eapply (proj1 (Forall_lookup (λ t, turns_left session t = 0%nat) _));
      [apply Hprog|exact Hi].
    intros j t' Hj. rewrite list_lookup_fmap in Hj.
    destruct (coros !! j) as [c|] eqn:Hc; simplify_eq/=.
    rewrite count_occ_app, count_occ_seq by (by eapply lookup_lt_Some).
    specialize (Hfair j c Hc). lia. }
  assert (Hnone : raised_by t = None).
  { eapply (proj1 (Forall_lookup (λ t, raised_by t = None) _));
      [apply Hraise|exact Hi].
    apply Forall_fmap, Forall_true. done. }
  destruct (turns_left_0 session t Hturn Hnone) as [a ->]. by eexists.
Qed.

Lemma gather_nil (sched : list nat) (w : world) :
  gather session (@nil (coro A)) sched w = (Some (Ok []), w).
Proof. unfold gather. simpl. by rewrite run_loop_nil_tasks. Qed.

End Gather.

(** ** The orchestrator *)

Lemma concat_df_columns (df_list : list DataFrame) (df : DataFrame) :
  concat_df df_list = Ok df →
  nombre df = mjoin (nombre <$> df_list) ∧
  categoria df = mjoin (categoria <$> df_list) ∧
  descripcion df = mjoin (descripcion <$> df_list) ∧
  seccion df = mjoin (seccion <$> df_list) ∧
  url df = mjoin (url <$> df_list).
Proof.
  unfold concat_df, pd_concat.
  assert (Hfold : ∀ l,
    nombre (foldr df_append df_empty l) = mjoin (nombre <$> l) ∧
    categoria (foldr df_append df_empty l) = mjoin (categoria <$> l) ∧
    descripcion (foldr df_append df_empty l) = mjoin (descripcion <$> l) ∧
    seccion (foldr df_append df_empty l) = mjoin (seccion <$> l) ∧
    url (foldr df_append df_empty l) = mjoin (url <$> l)).
  { induction l as [|d l (H1 & H2 & H3 & H4 & H5)]; [done|].
    simpl. by rewrite H1, H2, H3, H4, H5. }
  destruct df_list as [|d l]; [done|]. intros [= <-]. apply (Hfold (d :: l)).
Qed.

Section Orchestrator.
Variable BeautifulSoup : string → node.
Variable session : string → option response.

Lemma sopa_atrezzo_unfold (pagina : Z) :
  sopa_atrezzo BeautifulSoup pagina =
    SessionGet (url_atrezzo pagina) (sopa_atrezzo_respuesta BeautifulSoup).
Proof. reflexivity. Qed.

(** The document a page gives when its task runs on its own. *)
Lemma run_alone_sopa_atrezzo (pagina : Z) :
  run_alone session (sopa_atrezzo BeautifulSoup pagina) =
    match session (url_atrezzo pagina) with
    | None => Raise ClientError
    | Some r => Ok (if truthy (text r) then Some (BeautifulSoup (text r)) else None)
    end.
Proof.
  rewrite sopa_atrezzo_unfold. simpl.
  destruct (session (url_atrezzo pagina)) as [r|]; [|done].
  unfold sopa_atrezzo_respuesta.
  destruct (bool_decide (status r ≠ 200)); simpl; by destruct (truthy (text r)).
Qed.

Lemma run_alone_sopa_atrezzo_Raise (pagina : Z) (e : exn) :
  run_alone session (sopa_atrezzo BeautifulSoup pagina) = Raise e → e = ClientError.
Proof.
  rewrite run_alone_sopa_atrezzo. destruct (session _); congruence.
Qed.

Lemma awaits_sopa_atrezzo (pagina : Z) :
  (awaits session (sopa_atrezzo BeautifulSoup pagina) ≤ 2)%nat.
Proof.
  rewrite sopa_atrezzo_unfold. simpl.
  destruct (session (url_atrezzo pagina)) as [r|]; [|lia].
  unfold sopa_atrezzo_respuesta.
  destruct (bool_decide (status r ≠ 200)); simpl;
    destruct (truthy (text r)); simpl; lia.
Qed.

Lemma sends_nothing_respuesta (r : response) :
  sends_nothing (sopa_atrezzo_respuesta BeautifulSoup r) = true.
Proof.
  unfold sopa_atrezzo_respuesta.
  destruct (bool_decide (status r ≠ 200)); simpl; by destruct (truthy (text r)).
Qed.

Lemma tareas_fmap (paginas : Z) :
  fold_left (fun tareas pagina => tareas ++ [sopa_atrezzo BeautifulSoup pagina])
            (range 1 paginas) [] =
  sopa_atrezzo BeautifulSoup <$> range 1 paginas.
Proof. by apply (fold_left_append _ (sopa_atrezzo BeautifulSoup)). Qed.

(** Starting the tasks sends one request per page, in the order of the
    pages, and leaves every task waiting for its response. *)
Lemma run_loop_launch (pages : list Z) (done : list (task (option node))) (w : world) :
  run_loop session (done ++ (Ready <$> (sopa_atrezzo BeautifulSoup <$> pages)))
           (seq (length done) (length pages)) w =
  Running
    (done ++ ((λ pagina, AwaitingResponse (url_atrezzo pagina)
                           (sopa_atrezzo_respuesta BeautifulSoup)) <$> pages))
    (mkWorld (stdout w) (requests w ++ (url_atrezzo <$> pages))).
Proof.
  revert done w. induction pages as [|pagina pages IH]; intros done w.
  - simpl. rewrite !app_nil_r. by destruct w.
  - rewrite !fmap_cons. cbn [length seq]. rewrite run_loop_cons.
    rewrite list_lookup_middle by done.
    rewrite sopa_atrezzo_unfold. cbn [resume advance fst snd raised_by].
    rewrite insert_app_r_alt by done. rewrite Nat.sub_diag. cbn [insert list_insert].
    rewrite (cons_middle _ done), app_assoc.
    replace (S (length done)) with
      (length (done ++ [AwaitingResponse (url_atrezzo pagina)
                          (sopa_atrezzo_respuesta BeautifulSoup)]))
      by (rewrite length_app; simpl; lia).
    rewrite IH. f_equal.
    + by rewrite <- app_assoc.
    + unfold log_request. simpl. by rewrite <- app_assoc.
Qed.

(** The requests of a run of [gather] over the tasks of the pages: one
    per page, whatever the schedule and however far it gets. *)
Lemma gather_requests (pages : list Z) (sched : list nat) (w : world) :
  requests (gather session (sopa_atrezzo BeautifulSoup <$> pages) sched w).2 =
    requests w ++ (url_atrezzo <$> pages).
Proof.
  unfold gather. rewrite run_loop_app, length_fmap.
  pose proof (run_loop_launch pages [] w) as Hlaunch.
  cbn [app length] in Hlaunch. rewrite Hlaunch. clear Hlaunch.
  assert (Hreq : requests (loop_world (run_loop session
    ((λ pagina, AwaitingResponse (url_atrezzo pagina)
                  (sopa_atrezzo_respuesta BeautifulSoup)) <$> pages) sched
    (mkWorld (stdout w) (requests w ++ (url_atrezzo <$> pages))))) =
    requests w ++ (url_atrezzo <$> pages)).
  { rewrite run_loop_requests; [done|].
    apply Forall_fmap, Forall_true. intros pagina. simpl.
    destruct (session (url_atrezzo pagina)); auto using sends_nothing_respuesta. }
  by destruct (run_loop _ _ _ _) as [tasks' w'|e w'].
Qed.

(** What [main] returns, when it returns: the tables of the pages, in the
    order of the pages, handed to [concat_df]. *)
Lemma main_sound (paginas : Z) (sched : list nat) (w : world) :
  (main BeautifulSoup session paginas sched w).1 = None ∨
  (main BeautifulSoup session paginas sched w).1 =
    Some (sopas ← result_all
                   ((λ pagina, run_alone session (sopa_atrezzo BeautifulSoup pagina))
                      <$> range 1 paginas);
          concat_df (tablas sopas)).
Proof.
  unfold main. rewrite tareas_fmap.
  pose proof (gather_sound session (sopa_atrezzo BeautifulSoup <$> range 1 paginas)
                sched w) as Hg.
  rewrite <- list_fmap_compose in Hg.
  destruct (gather _ _ _ _) as [[[sopas|e]|] w']; simpl in Hg; [| |by left].
  - right. pose proof (extraer_tablas sopas w') as Ht.
    destruct (extraer sopas w') as [df_list w'']. simpl in Ht. subst df_list.
    cbn [fst].
    change (run_alone session ∘ sopa_atrezzo BeautifulSoup) with
      (λ pagina, run_alone session (sopa_atrezzo BeautifulSoup pagina)) in Hg.
    by rewrite <- Hg, result_all_fmap_Ok.
  - right. cbn [fst]. destruct Hg as (c & Hc & He).
    apply list_elem_of_fmap in Hc as (pagina & -> & Hpagina).
    pose proof (run_alone_sopa_atrezzo_Raise _ _ He) as ->.
    destruct (result_all_elem_Raise
                ((λ pagina, run_alone session (sopa_atrezzo BeautifulSoup pagina))
                   <$> range 1 paginas) ClientError) as [e' He'].
    { rewrite <- He. apply list_elem_of_fmap. by exists pagina. }
    rewrite He'. simpl. do 2 f_equal.
    apply result_all_Raise, list_elem_of_fmap in He' as (pagina' & He' & _).
    symmetry in He'. by apply run_alone_sopa_atrezzo_Raise in He'.
Qed.

(** [main] returns once the response and the body of every page have
    arrived. *)
Lemma main_complete (paginas : Z) (sched : list nat) (w : world) :
  (∀ i : nat, (i < length (range 1 paginas))%nat →
     (2 ≤ count_occ Nat.eq_dec sched i)%nat) →
  is_Some (main BeautifulSoup session paginas sched w).1.
Proof.
  intros Hfair. unfold main. rewrite tareas_fmap.
  destruct (gather_complete session (sopa_atrezzo BeautifulSoup <$> range 1 paginas)
              sched w) as [r Hr].
  { intros i c Hi. rewrite list_lookup_fmap in Hi.
    destruct (range 1 paginas !! i) as [pagina|] eqn:Hp; [|done].
    injection Hi as <-.
    pose proof (awaits_sopa_atrezzo pagina).
    specialize (Hfair i (lookup_lt_Some _ _ _ Hp)). lia. }
  destruct (gather _ _ _ _) as [o w']. simpl in Hr. subst o.
  destruct r as [sopas|e]; [|by eexists].
  destruct (extraer sopas w'). by eexists.
Qed.

Lemma main_requests (paginas : Z) (sched : list nat) (w : world) :
  requests (main BeautifulSoup session paginas sched w).2 =
    requests w ++ (url_atrezzo <$> range 1 paginas).
Proof.
  unfold main. rewrite tareas_fmap.
  pose proof (gather_requests (range 1 paginas) sched w) as Hreq.
  destruct (gather _ _ _ _) as [[[sopas|e]|] w']; simpl in *; try done.
  pose proof (extraer_requests sopas w') as Hex.
  destruct (extraer sopas w'). simpl in *. congruence.
Qed.

End Orchestrator.

Lemma result_all_Ok_inv {A : Type} (l : list (result A)) (vs : list A) :
  result_all l = Ok vs → l = Ok <$> vs.
Proof.
  revert vs. induction l as [|[a|e] l IH]; intros vs; simpl; [by intros [= <-]| |done].
  destruct (result_all l) as [vs'|e]; simpl; [|done].
  intros [= <-]. by rewrite (IH vs').
Qed.

#[global] Instance url_atrezzo_inj : Inj (=) (=) url_atrezzo.
Proof. intros p q Hpq. unfold url_atrezzo in Hpq. by simplify_eq. Qed.

(** ** The orchestrator against its specification *)

(** C10. For every run, that is for every answer of the server to each page
    and every order in which the responses and the bodies arrive, [main]
    returns nothing but the concatenation of the tables of the pages in
    ascending page order: the documents are read from the tasks in the order
    the tasks were given, so the schedule has no part in the result.  Once
    the response and the body of every page have arrived, [main] does
    return it. *)
Theorem combined_table_in_page_order
    (BeautifulSoup : string → node) (session : string → option response)
    (paginas : Z) (sched : list nat) (w : world) :
  let documentos :=
    (λ pagina, run_alone session (sopa_atrezzo BeautifulSoup pagina))
      <$> range 1 paginas in
  let esperado := sopas ← result_all documentos; concat_df (tablas sopas) in
  ((main BeautifulSoup session paginas sched w).1 = None ∨
   (main BeautifulSoup session paginas sched w).1 = Some esperado) ∧
  ((∀ i : nat, (i < length (range 1 paginas))%nat →
      (2 ≤ count_occ Nat.eq_dec sched i)%nat) →
   (main BeautifulSoup session paginas sched w).1 = Some esperado) ∧
  (∀ df : DataFrame,
     (main BeautifulSoup session paginas sched w).1 = Some (Ok df) →
     ∃ sopas : list (option node),
       documentos = Ok <$> sopas ∧
       nombre df = mjoin (nombre <$> tablas sopas) ∧
       categoria df = mjoin (categoria <$> tablas sopas) ∧
       descripcion df = mjoin (descripcion <$> tablas sopas) ∧
       seccion df = mjoin (seccion <$> tablas sopas) ∧
       url df = mjoin (url <$> tablas sopas)).
Proof.
  intros documentos esperado.
  pose proof (main_sound BeautifulSoup session paginas sched w) as Hsound.
  fold documentos in Hsound. fold esperado in Hsound.
  split; [exact Hsound|]. split.
  - intros Hfair.
    destruct (main_complete BeautifulSoup session paginas sched w Hfair) as [r Hr].
    destruct Hsound as [Hnone|Hsome]; congruence.
  - intros df Hdf. destruct Hsound as [Hnone|Hsome]; [congruence|].
    rewrite Hsome in Hdf. injection Hdf as Hdf. unfold esperado in Hdf.
    destruct (result_all documentos) as [sopas|e] eqn:Hdocs; [|done].
    exists sopas. split; [by apply result_all_Ok_inv|].
    by apply concat_df_columns.
Qed.

Lemma combined_table_in_page_order_witness :
  ∃ df : DataFrame,
    (main parser_demo session_ok 3 [1; 1; 0; 0]%nat mundo_inicial).1 = Some (Ok df) ∧
    nombre df = [Str "Silla Luis XV"; Str "Silla Luis XV"; NaN; Str "Espejo"].
Proof.
  destruct (combined_table_in_page_order parser_demo session_ok 3
              [1; 1; 0; 0]%nat mundo_inicial) as (_ & Hfair & _).
  eexists. split.
  - rewrite Hfair.
    + vm_compute. reflexivity.
    + intros i Hi. vm_compute in Hi.
      destruct i as [|[|i]]; [vm_compute; lia|vm_compute; lia|lia].
  - reflexivity.
Defined.

(** C8. For every page count [p >= 1], whatever the schedule and the
    answers of the server, the requests of a run of [main] are the URLs of
    the pages [1 .. p-1], one each and in this order: [p - 1] requests, no
    URL twice, and the URL of a page is among them exactly when the page is
    between 1 and [p - 1]; the URL of page [p] is not. *)
Theorem fetch_requests
    (BeautifulSoup : string → node) (session : string → option response)
    (paginas : Z) (sched : list nat) (w : world) :
  1 ≤ paginas →
  let pedidas := url_atrezzo <$> seqZ 1 (paginas - 1) in
  requests (main BeautifulSoup session paginas sched w).2 = requests w ++ pedidas ∧
  Z.of_nat (length pedidas) = paginas - 1 ∧
  NoDup pedidas ∧
  (∀ pagina : Z, url_atrezzo pagina ∈ pedidas ↔ 1 ≤ pagina ≤ paginas - 1) ∧
  url_atrezzo paginas ∉ pedidas.
Proof.
  intros Hp pedidas.
  assert (Hin : ∀ pagina : Z, url_atrezzo pagina ∈ pedidas ↔ 1 ≤ pagina ≤ paginas - 1).
  { intros pagina. unfold pedidas.
    rewrite (list_elem_of_fmap_inj url_atrezzo), elem_of_seqZ. lia. }
  split; [apply main_requests|]. split; [|split; [|split]].
  - unfold pedidas. rewrite length_fmap, length_seqZ. lia.
  - unfold pedidas. apply NoDup_fmap; [apply _|apply NoDup_seqZ].
  - exact Hin.
  - rewrite Hin. lia.
Qed.

Lemma fetch_requests_witness :
  requests (main parser_demo session_ok 3 [1; 0]%nat mundo_inicial).2 =
    [url_atrezzo 1; url_atrezzo 2] ∧
  url_atrezzo 3 ∉ [url_atrezzo 1; url_atrezzo 2].
Proof.
  destruct (fetch_requests parser_demo session_ok 3 [1; 0]%nat mundo_inicial)
    as (Hreq & _ & _ & _ & Hnot).
  - lia.
  - split; [exact Hreq|exact Hnot].
Defined.

(** ** Where the code departs from the specification *)

(** C1. [fetch_async_url] returns the body of the response whatever the
    status: after a status other than 200 it prints its two lines and goes
    on to return the text.  With status 500 and a body that is not empty,
    the caller gets the body, not [None]. *)
Theorem fetch_async_url_returns_body_on_error :
  (∀ (estado : Z) (cuerpo url : string),
     run_alone (λ _, Some (mkResponse estado cuerpo)) (fetch_async_url url) = Ok cuerpo) ∧
  gather session_500 [fetch_async_url (url_atrezzo 1)] [0; 0]%nat mundo_inicial =
    (Some (Ok ["<uno>"]),
     mkWorld ["Se ha producido un error"; "Status code: 500"] [url_atrezzo 1]).
Proof.
  split; [|vm_compute; reflexivity].
  intros estado cuerpo url. unfold fetch_async_url. simpl.
  by destruct (bool_decide (estado ≠ 200)).
Qed.

(** C2. A page answered with status 500 and a body holding one product
    block contributes that product to the table [main] returns: one row,
    not zero. *)
Theorem non200_page_contributes_rows :
  main parser_demo session_500 2 [0; 0]%nat mundo_inicial =
    (Some (Ok (mkDataFrame [Str "Silla Luis XV"] [Str "Sillas"]
                 [Str "Silla de madera tallada"] [Str "Comedor"]
                 [Str "admin/img_prod/silla.jpg"])),
     mkWorld ["Se ha producido un error"; "Status code: 500"] [url_atrezzo 1]) ∧
  (∀ df : DataFrame,
     (main parser_demo session_500 2 [0; 0]%nat mundo_inicial).1 = Some (Ok df) →
     nrows df = 1%nat).
Proof.
  assert (Hmain : main parser_demo session_500 2 [0; 0]%nat mundo_inicial =
    (Some (Ok (mkDataFrame [Str "Silla Luis XV"] [Str "Sillas"]
                 [Str "Silla de madera tallada"] [Str "Comedor"]
                 [Str "admin/img_prod/silla.jpg"])),
     mkWorld ["Se ha producido un error"; "Status code: 500"] [url_atrezzo 1]))
    by (vm_compute; reflexivity).
  split; [exact Hmain|].
  intros df. rewrite Hmain. simpl. by intros [= <-].
Qed.

(** C3. With a page count of 1 no page is requested, the list of tables
    is empty and [concat_df] raises: [main] raises [ValueError], whatever
    the server and the schedule.  The same happens when the extraction of
    every page fails.  A connection that fails makes [main] raise as well. *)
Theorem main_raises_on_no_tables :
  (∀ (BeautifulSoup : string → node) (session : string → option response)
     (sched : list nat) (w : world),
     main BeautifulSoup session 1 sched w =
       (Some (Raise (ValueError "No objects to concatenate")), w)) ∧
  (main parser_demo session_404 3 [0; 0; 1; 1]%nat mundo_inicial).1 =
    Some (Raise (ValueError "No objects to concatenate")) ∧
  (main parser_demo (λ _, None) 2 [0]%nat mundo_inicial).1 =
    Some (Raise ClientError).
Proof.
  split; [|split; vm_compute; reflexivity].
  intros BeautifulSoup session sched w. unfold main.
  change (range 1 1) with (@nil Z). simpl.
  by rewrite gather_nil.
Qed.

(** * Further properties of the code *)

Lemma main_outcome
    (BeautifulSoup : string → node) (session : string → option response)
    (paginas : Z) (sched : list nat) (w : world) :
  ((main BeautifulSoup session paginas sched w).1 = None ∨
   (main BeautifulSoup session paginas sched w).1 =
     Some (sopas ← result_all
                    ((λ pagina, run_alone session (sopa_atrezzo BeautifulSoup pagina))
                       <$> range 1 paginas);
           concat_df (tablas sopas))) ∧
  ((∀ i : nat, (i < length (range 1 paginas))%nat →
      (2 ≤ count_occ Nat.eq_dec sched i)%nat) →
   (main BeautifulSoup session paginas sched w).1 =
     Some (sopas ← result_all
                    ((λ pagina, run_alone session (sopa_atrezzo BeautifulSoup pagina))
                       <$> range 1 paginas);
           concat_df (tablas sopas))).
Proof.
  pose proof (main_sound BeautifulSoup session paginas sched w) as Hsound.
  split; [exact Hsound|]. intros Hfair.
  destruct (main_complete BeautifulSoup session paginas sched w Hfair) as [r Hr].
  destruct Hsound as [Hnone|Hsome]; congruence.
Qed.

(** ** The record extractor *)

(** X1. The extractor returns a table exactly when the document has as
    many section blocks and image containers as product blocks, and as many
    kept descriptions (48 at most); the five columns of the table then all
    have that length.  The only exception it raises on a document is the
    one of the constructor of the table. *)
Theorem llenar_diccionario_returns_iff (sopa : node) :
  let k := length (findAll sopa "div" (Some "product-slide-entry shift-image")) in
  ((∃ df : DataFrame, llenar_diccionario (Some sopa) = Ok df) ↔
     length (findAll sopa "div" (Some "cat-sec-box")) = k ∧
     length (findAll sopa "div" (Some "product-image")) = k ∧
     (48 `min` length (findAll sopa "p" None))%nat = k) ∧
  (∀ df : DataFrame, llenar_diccionario (Some sopa) = Ok df →
     length (nombre df) = k ∧ length (categoria df) = k ∧
     length (descripcion df) = k ∧ length (seccion df) = k ∧
     length (url df) = k) ∧
  (∀ e : exn, llenar_diccionario (Some sopa) = Raise e →
     e = ValueError "All arrays must be of the same length").
Proof.
  intros k.
  pose proof (length_nombres_productos sopa) as Hn.
  pose proof (length_categorias_productos sopa) as Hc.
  pose proof (length_secciones_productos sopa) as Hs.
  pose proof (length_imagenes_productos sopa) as Hu.
  pose proof (length_descripciones_productos sopa) as Hd.
  fold k in Hn, Hc. unfold page_size in Hd.
  rewrite llenar_diccionario_columnas.
  split; [split|split].
  - intros [df Hdf]. apply pd_DataFrame_inv in Hdf as (_ & H1 & H2 & H3 & H4). lia.
  - intros (H1 & H2 & H3). eexists. apply pd_DataFrame_Ok; lia.
  - intros df Hdf. apply pd_DataFrame_inv in Hdf as (-> & H1 & H2 & H3 & H4).
    simpl. lia.
  - intros e. unfold pd_DataFrame. by destruct (_ && _); intros [= <-].
Qed.

Lemma llenar_diccionario_returns_iff_witness :
  (∃ df : DataFrame, llenar_diccionario (Some doc_tres) = Ok df) ∧
  (∀ df : DataFrame, llenar_diccionario (Some doc_tres) = Ok df →
     length (seccion df) = 3%nat).
Proof.
  destruct (llenar_diccionario_returns_iff doc_tres) as (Hiff & Hlen & _).
  split.
  - apply Hiff. vm_compute. auto.
  - intros df Hdf. by destruct (Hlen df Hdf) as (_ & _ & _ & H & _).
Defined.

(** X2. A table of a page never has more than 48 rows; a document with
    more than 48 product blocks never gives a table. *)
Theorem page_table_at_most_48_rows (sopa : node) :
  (∀ df : DataFrame, llenar_diccionario (Some sopa) = Ok df → (nrows df ≤ 48)%nat) ∧
  ((48 < length (findAll sopa "div" (Some "product-slide-entry shift-image")))%nat →
     llenar_diccionario (Some sopa) =
       Raise (ValueError "All arrays must be of the same length")).
Proof.
  pose proof (length_nombres_productos sopa) as Hn.
  pose proof (length_descripciones_productos sopa) as Hd.
  unfold page_size in Hd. rewrite llenar_diccionario_columnas. split.
  - intros df Hdf. apply pd_DataFrame_inv in Hdf as (-> & _ & H2 & _).
    unfold nrows. simpl. lia.
  - intros Hk. apply pd_DataFrame_Raise. lia.
Qed.

Lemma page_table_at_most_48_rows_witness :
  llenar_diccionario (Some (documento (replicate 49 producto_completo))) =
    Raise (ValueError "All arrays must be of the same length") ∧
  (∀ df : DataFrame, llenar_diccionario (Some doc_48_productos) = Ok df →
     (nrows df ≤ 48)%nat).
Proof.
  split.
  - apply (page_table_at_most_48_rows (documento (replicate 49 producto_completo))).
    vm_compute. lia.
  - apply (page_table_at_most_48_rows doc_48_productos).
Defined.

(** X3. The description column of a table never holds a null: every cell
    of it is the text of a paragraph of the document. *)
Theorem descripcion_never_null (sopa : node) (df : DataFrame) (c : cell) :
  llenar_diccionario (Some sopa) = Ok df → c ∈ descripcion df →
  is_null c = false ∧ ∃ p : node, p ∈ findAll sopa "p" None ∧ c = Str (getText p).
Proof.
  rewrite llenar_diccionario_columnas. intros Hdf Hc.
  apply pd_DataFrame_inv in Hdf as (-> & _). simpl in Hc.
  unfold descripciones_productos in Hc. rewrite descripciones_fmap in Hc.
  apply subseteq_take in Hc.
  apply list_elem_of_fmap in Hc as (p & -> & Hp). split; [done|]. by exists p.
Qed.

Lemma descripcion_never_null_witness :
  is_null (Str "Mesa baja") = false ∧
  ∃ p : node, p ∈ findAll doc_tres "p" None ∧ Str "Mesa baja" = Str (getText p).
Proof.
  eapply (descripcion_never_null doc_tres).
  - vm_compute. reflexivity.
  - simpl. apply list_elem_of_further, list_elem_of_here.
Defined.

(** ** Pages without a document *)

(** X4. A page whose response has an empty body gives no document,
    whatever its status: [sopa_atrezzo] returns [None], the extractor
    raises [AttributeError] on it, and the extraction loop of [main] drops
    the page: it prints its message, and the tables it keeps, hence what it
    hands to [concat_df], are those of the run without that page. *)
Theorem empty_body_page_dropped
    (BeautifulSoup : string → node) (session : string → option response)
    (pagina : Z) (r : response) (antes despues : list (option node)) (w : world) :
  session (url_atrezzo pagina) = Some r → text r = "" →
  run_alone session (sopa_atrezzo BeautifulSoup pagina) = Ok None ∧
  llenar_diccionario None = Raise AttributeError ∧
  (extraer (antes ++ None :: despues) w).1 = (extraer (antes ++ despues) w).1 ∧
  concat_df (extraer (antes ++ None :: despues) w).1 =
    concat_df (extraer (antes ++ despues) w).1 ∧
  "No se ha añadido la página" ∈ stdout (extraer (antes ++ None :: despues) w).2.
Proof.
  intros Hr Hempty.
  assert (Hsame : (extraer (antes ++ None :: despues) w).1 =
                  (extraer (antes ++ despues) w).1).
  { by rewrite !extraer_tablas, !tablas_app, tablas_cons. }
  split; [by rewrite run_alone_sopa_atrezzo, Hr, Hempty|].
  split; [done|]. split; [exact Hsame|]. split; [by rewrite Hsame|].
  eapply (extraer_stdout _ _ None); [|reflexivity].
  apply elem_of_app. right. apply list_elem_of_here.
Qed.

Lemma empty_body_page_dropped_witness :
  run_alone (λ _, Some (mkResponse 200 "")) (sopa_atrezzo parser_demo 1) = Ok None ∧
  llenar_diccionario None = Raise AttributeError ∧
  (extraer ([Some doc_uno] ++ None :: [Some doc_tres]) mundo_inicial).1 =
    (extraer ([Some doc_uno] ++ [Some doc_tres]) mundo_inicial).1 ∧
  concat_df (extraer ([Some doc_uno] ++ None :: [Some doc_tres]) mundo_inicial).1 =
    concat_df (extraer ([Some doc_uno] ++ [Some doc_tres]) mundo_inicial).1 ∧
  "No se ha añadido la página" ∈
    stdout (extraer ([Some doc_uno] ++ None :: [Some doc_tres]) mundo_inicial).2.
Proof.
  apply (empty_body_page_dropped parser_demo (λ _, Some (mkResponse 200 "")) 1
           (mkResponse 200 "")); reflexivity.
Defined.

Lemma length_tablas (sopas : list (option node)) :
  (length (tablas sopas) ≤ length sopas)%nat.
Proof.
  induction sopas as [|sopa sopas IH]; [done|].
  rewrite tablas_cons. destruct (llenar_diccionario sopa); simpl; lia.
Qed.

Lemma extraer_fold_stdout (sopas : list (option node)) (df_list : list DataFrame)
    (w : world) :
  stdout
    (fold_left
       (fun '(df_list, w) sopa =>
          try_except (llenar_diccionario sopa)
            (fun df_atrezzo => (df_list ++ [df_atrezzo], w))
            (df_list, print_line "No se ha añadido la página" w))
       sopas (df_list, w)).2 =
  stdout w ++ replicate (length sopas - length (tablas sopas))
                        "No se ha añadido la página".
Proof.
  revert df_list w. induction sopas as [|sopa sopas IH]; intros df_list w.
  - simpl. by rewrite app_nil_r.
  - pose proof (length_tablas sopas) as Hlen.
    cbn [fold_left]. rewrite tablas_cons.
    destruct (llenar_diccionario sopa) as [df|e]; cbn [try_except].
    + rewrite IH. simpl. done.
    + rewrite IH. simpl.
      replace (S (length sopas) - length (tablas sopas))%nat
        with (S (length sopas - length (tablas sopas))) by lia.
      by rewrite <- app_assoc.
Qed.

(** X5. The extraction loop prints its message once for every page it
    drops and nothing else: the pages it was given are those whose table it
    keeps and those it has printed the message for. *)
Theorem extraer_one_line_per_dropped_page (sopas : list (option node)) (w : world) :
  stdout (extraer sopas w).2 =
    stdout w ++ replicate (length sopas - length (extraer sopas w).1)
                          "No se ha añadido la página" ∧
  (length (extraer sopas w).1 ≤ length sopas)%nat ∧
  requests (extraer sopas w).2 = requests w.
Proof.
  rewrite extraer_tablas. split; [|split].
  - apply extraer_fold_stdout.
  - apply length_tablas.
  - apply extraer_requests.
Qed.

(** ** The aggregator *)

(** X6. On a list that is not empty [concat_df] returns a table: each of
    its five columns is that column of the tables of the list one after the
    other, in the order of the list, so its row count is the sum of theirs;
    a list of one table gives that table back. *)
Theorem concat_df_rows (df_list : list DataFrame) :
  df_list ≠ [] →
  ∃ df : DataFrame,
    concat_df df_list = Ok df ∧
    nombre df = mjoin (nombre <$> df_list) ∧
    categoria df = mjoin (categoria <$> df_list) ∧
    descripcion df = mjoin (descripcion <$> df_list) ∧
    seccion df = mjoin (seccion <$> df_list) ∧
    url df = mjoin (url <$> df_list) ∧
    nrows df = sum_list (nrows <$> df_list) ∧
    (∀ d : DataFrame, df_list = [d] → df = d).
Proof.
  intros Hne. destruct df_list as [|d l]; [done|].
  eexists. split; [reflexivity|].
  destruct (concat_df_columns (d :: l) _ eq_refl) as (Hn & Hc & Hd & Hs & Hu).
  split; [exact Hn|]. split; [exact Hc|]. split; [exact Hd|].
  split; [exact Hs|]. split; [exact Hu|]. split.
  - unfold nrows at 1. rewrite Hn, length_join, <- list_fmap_compose. done.
  - intros d' [= -> ->]. destruct d'. simpl. unfold df_append. simpl.
    by rewrite !app_nil_r.
Qed.

Lemma concat_df_rows_witness :
  ∃ df : DataFrame,
    concat_df (tablas [Some doc_uno; Some doc_tres]) = Ok df ∧ nrows df = 4%nat ∧
    descripcion df = mjoin (descripcion <$> tablas [Some doc_uno; Some doc_tres]).
Proof.
  destruct (concat_df_rows (tablas [Some doc_uno; Some doc_tres]))
    as (df & Hdf & _ & _ & Hd & _ & _ & Hrows & _).
  - vm_compute. discriminate.
  - exists df. split; [exact Hdf|]. split; [|exact Hd]. rewrite Hrows. reflexivity.
Defined.

Lemma foldr_df_append_app (l1 l2 : list DataFrame) :
  foldr df_append df_empty (l1 ++ l2) =
    df_append (foldr df_append df_empty l1) (foldr df_append df_empty l2).
Proof.
  induction l1 as [|d l1 IH]; simpl.
  - by destruct (foldr df_append df_empty l2).
  - rewrite IH. unfold df_append. simpl. by rewrite !app_assoc.
Qed.

(** X7. Concatenation composes: the table of two lists put together is the
    table of the first followed by the table of the second. *)
Theorem concat_df_app (l1 l2 : list DataFrame) (a b : DataFrame) :
  concat_df l1 = Ok a → concat_df l2 = Ok b →
  concat_df (l1 ++ l2) = Ok (df_append a b).
Proof.
  unfold concat_df, pd_concat.
  destruct l1 as [|d1 l1]; [done|]. destruct l2 as [|d2 l2]; [done|].
  intros [= <-] [= <-]. simpl. f_equal.
  exact (foldr_df_append_app (d1 :: l1) (d2 :: l2)).
Qed.

Lemma concat_df_app_witness :
  ∃ a b : DataFrame,
    concat_df (tablas [Some doc_uno]) = Ok a ∧
    concat_df (tablas [Some doc_tres]) = Ok b ∧
    concat_df (tablas [Some doc_uno] ++ tablas [Some doc_tres]) = Ok (df_append a b).
Proof.
  eexists _, _.
  assert (Ha : concat_df (tablas [Some doc_uno]) = Ok _) by (vm_compute; reflexivity).
  assert (Hb : concat_df (tablas [Some doc_tres]) = Ok _) by (vm_compute; reflexivity).
  split; [exact Ha|]. split; [exact Hb|].
  exact (concat_df_app _ _ _ _ Ha Hb).
Defined.

(** ** The page fetcher *)

(** X8. A fetch on its own sends one request.  When the response arrives it
    prints the status line, preceded by the error line exactly when the
    status is not 200, and its result is the body; when the connection
    fails it prints nothing and raises. *)
Theorem fetch_async_url_run (session : string → option response) (url : string)
    (w : world) :
  gather session [fetch_async_url url] [0; 0]%nat w =
    match session url with
    | Some r =>
        (Some (Ok [text r]),
         mkWorld
           (stdout w ++
            (if bool_decide (status r ≠ 200) then ["Se ha producido un error"] else []) ++
            ["Status code: " +:+ pretty (status r)])
           (requests w ++ [url]))
    | None => (Some (Raise ClientError), mkWorld (stdout w) (requests w ++ [url]))
    end.
Proof.
  unfold gather. simpl. destruct (session url) as [r|]; [|done].
  simpl. destruct (bool_decide (status r ≠ 200)); simpl; [|done].
  unfold print_line, log_request. simpl. by rewrite <- app_assoc.
Qed.

(** ** The orchestrator *)

(** X9. With a page count of 1 or less, zero and negative counts included,
    [main] sends no request, prints nothing and raises the [ValueError] of
    the empty concatenation. *)
Theorem main_no_pages
    (BeautifulSoup : string → node) (session : string → option response)
    (paginas : Z) (sched : list nat) (w : world) :
  paginas ≤ 1 →
  main BeautifulSoup session paginas sched w =
    (Some (Raise (ValueError "No objects to concatenate")), w).
Proof.
  intros Hp. unfold main, range. rewrite seqZ_nil by lia. simpl.
  by rewrite gather_nil.
Qed.

Lemma main_no_pages_witness :
  main parser_demo session_ok (-3) [0; 1]%nat mundo_inicial =
    (Some (Raise (ValueError "No objects to concatenate")), mundo_inicial).
Proof. apply main_no_pages. lia. Defined.

Lemma esperado_Raise (BeautifulSoup : string → node) (session : string → option response)
    (paginas pagina : Z) :
  pagina ∈ range 1 paginas → session (url_atrezzo pagina) = None →
  (sopas ← result_all
             ((λ pagina, run_alone session (sopa_atrezzo BeautifulSoup pagina))
                <$> range 1 paginas);
   concat_df (tablas sopas)) = Raise ClientError.
Proof.
  intros Hin Hnone.
  destruct (result_all_elem_Raise
              ((λ pagina, run_alone session (sopa_atrezzo BeautifulSoup pagina))
                 <$> range 1 paginas) ClientError) as [e He].
  { apply list_elem_of_fmap. exists pagina. split; [|done].
    by rewrite run_alone_sopa_atrezzo, Hnone. }
  rewrite He. simpl. f_equal.
  apply result_all_Raise, list_elem_of_fmap in He as (pagina' & He & _).
  symmetry in He. by apply run_alone_sopa_atrezzo_Raise in He.
Qed.

(** X10. One connection that fails aborts the whole run: if the GET of any
    requested page fails, [main] returns no table under any schedule, and
    raises [ClientError] once the responses have arrived, whatever the
    other pages hold. *)
Theorem connection_failure_aborts_run
    (BeautifulSoup : string → node) (session : string → option response)
    (paginas pagina : Z) (sched : list nat) (w : world) :
  1 ≤ pagina < paginas → session (url_atrezzo pagina) = None →
  (∀ df : DataFrame, (main BeautifulSoup session paginas sched w).1 ≠ Some (Ok df)) ∧
  ((∀ i : nat, (i < length (range 1 paginas))%nat →
      (2 ≤ count_occ Nat.eq_dec sched i)%nat) →
   (main BeautifulSoup session paginas sched w).1 = Some (Raise ClientError)).
Proof.
  intros Hp Hnone.
  assert (Hin : pagina ∈ range 1 paginas) by (apply elem_of_seqZ; lia).
  pose proof (esperado_Raise BeautifulSoup session paginas pagina Hin Hnone) as Hesp.
  destruct (main_outcome BeautifulSoup session paginas sched w)
    as (Hsound & Hfair).
  rewrite Hesp in Hsound, Hfair. split; [|exact Hfair].
  intros df Hdf. destruct Hsound as [H|H]; congruence.
Qed.

Lemma connection_failure_aborts_run_witness :
  (main parser_demo
     (λ url, if String.eqb url (url_atrezzo 2) then None else session_ok url)
     3 [0; 0; 1; 1]%nat mundo_inicial).1 = Some (Raise ClientError).
Proof.
  apply (connection_failure_aborts_run parser_demo _ 3 2).
  - lia.
  - reflexivity.
  - intros i Hi. vm_compute in Hi.
    destruct i as [|[|i]]; [vm_compute; lia|vm_compute; lia|lia].
Defined.

(** X11. The status codes have no part in the result: two runs of [main]
    in which the pages get the same bodies return the same, whatever the
    statuses of the responses and the schedules. *)
Theorem status_never_changes_the_table
    (BeautifulSoup : string → node) (s1 s2 : string → option response)
    (paginas : Z) (sched1 sched2 : list nat) (w1 w2 : world) :
  (∀ pagina : Z, pagina ∈ range 1 paginas →
     text <$> s1 (url_atrezzo pagina) = text <$> s2 (url_atrezzo pagina)) →
  (∀ i : nat, (i < length (range 1 paginas))%nat →
     (2 ≤ count_occ Nat.eq_dec sched1 i)%nat ∧ (2 ≤ count_occ Nat.eq_dec sched2 i)%nat) →
  (main BeautifulSoup s1 paginas sched1 w1).1 =
    (main BeautifulSoup s2 paginas sched2 w2).1.
Proof.
  intros Hbody Hfair.
  rewrite (proj2 (main_outcome BeautifulSoup s1 paginas sched1 w1))
    by (intros i Hi; by apply Hfair).
  rewrite (proj2 (main_outcome BeautifulSoup s2 paginas sched2 w2))
    by (intros i Hi; by apply Hfair).
  do 3 f_equal. apply list_fmap_ext. intros i pagina Hi.
  rewrite !run_alone_sopa_atrezzo.
  specialize (Hbody pagina (list_elem_of_lookup_2 _ _ _ Hi)).
  destruct (s1 (url_atrezzo pagina)) as [r1|], (s2 (url_atrezzo pagina)) as [r2|];
    simplify_eq/=; [|done].
  by rewrite Hbody.
Qed.

Lemma status_never_changes_the_table_witness :
  (main parser_demo session_ok 2 [0; 0]%nat mundo_inicial).1 =
    (main parser_demo session_500 2 [0; 0; 0]%nat mundo_inicial).1.
Proof.
  apply status_never_changes_the_table.
  - intros pagina Hpagina. apply elem_of_seqZ in Hpagina.
    assert (pagina = 1) as -> by lia. reflexivity.
  - intros i Hi. vm_compute in Hi. destruct i as [|i]; [vm_compute; lia|lia].
Defined.

Section Waiting.
Variable session : string → option response.
Context {A : Type}.

(** Each turn given to a task takes one off the turns it still needs. *)
Lemma run_loop_turns (sched : list nat) (tasks : list (task A)) (w : world) :
  match run_loop session tasks sched w with
  | Running tasks' _ =>
      ∀ (i : nat) (t : task A), tasks !! i = Some t →
        ∃ t' : task A, tasks' !! i = Some t' ∧
          turns_left session t' =
            (turns_left session t - count_occ Nat.eq_dec sched i)%nat
  | Raised _ _ => True
  end.
Proof.
  revert tasks w. induction sched as [|i0 sched IH]; intros tasks w.
  - simpl. intros i t Hi. exists t. split; [done|lia].
  - rewrite run_loop_cons. destruct (tasks !! i0) as [t0|] eqn:Hi0.
    + destruct (raised_by _) eqn:Hr; [done|].
      specialize (IH (<[i0:=(resume session t0 w).1]> tasks) (resume session t0 w).2).
      destruct (run_loop _ _ _ _) as [tasks' w'|]; [|done].
      intros i t Hi. destruct (decide (i0 = i)) as [->|Hne].
      * destruct (IH i (resume session t0 w).1) as (t' & Ht' & Hturns).
        { apply list_lookup_insert_eq. by eapply lookup_lt_Some. }
        exists t'. split; [done|]. rewrite Hturns, resume_turns.
        simplify_eq. simpl. destruct (Nat.eq_dec i i); [lia|done].
      * destruct (IH i t) as (t' & Ht' & Hturns).
        { by rewrite list_lookup_insert_ne. }
        exists t'. split; [done|]. rewrite Hturns. simpl.
        destruct (Nat.eq_dec i0 i); [done|lia].
    + specialize (IH tasks w).
      destruct (run_loop _ _ _ _) as [tasks' w'|]; [|done].
      intros i t Hi. destruct (IH i t Hi) as (t' & Ht' & Hturns).
      exists t'. split; [done|]. rewrite Hturns. simpl.
      destruct (Nat.eq_dec i0 i); [congruence|lia].
Qed.

(** [gather] gives no results while a task has not had all its turns. *)
Lemma gather_pending (coros : list (coro A)) (sched : list nat) (w : world)
    (i : nat) (c : coro A) :
  coros !! i = Some c →
  (count_occ Nat.eq_dec sched i < awaits session c)%nat →
  ∀ vs : list A, (gather session coros sched w).1 ≠ Some (Ok vs).
Proof.
  intros Hc Hcount vs. unfold gather.
  pose proof (run_loop_turns (seq 0 (length coros) ++ sched) (Ready <$> coros) w)
    as Hturns.
  destruct (run_loop _ _ _ _) as [tasks' w'|e w']; [|done]. simpl.
  destruct (Hturns i (Ready c)) as (t' & Ht' & Hleft).
  { by rewrite list_lookup_fmap, Hc. }
  rewrite count_occ_app, count_occ_seq in Hleft by (by eapply lookup_lt_Some).
  simpl in Hleft.
  destruct (mapM task_value tasks') as [vs'|] eqn:Hvs; [|done].
  apply mapM_Some in Hvs.
  destruct (Forall2_lookup_l _ _ _ _ _ Hvs Ht') as (v & _ & Hv).
  destruct t' as [?|??|??|[?|?]]; simplify_eq/=. lia.
Qed.

End Waiting.

Lemma awaits_sopa_atrezzo_Some (BeautifulSoup : string → node)
    (session : string → option response) (pagina : Z) :
  is_Some (session (url_atrezzo pagina)) →
  awaits session (sopa_atrezzo BeautifulSoup pagina) = 2%nat.
Proof.
  intros [r Hr]. rewrite sopa_atrezzo_unfold. simpl. rewrite Hr.
  unfold sopa_atrezzo_respuesta.
  destruct (bool_decide (status r ≠ 200)); simpl; by destruct (truthy (text r)).
Qed.

(** X12. [main] waits for every page: when the server answers every page,
    then as long as the response or the body of one page has not arrived
    [main] has returned nothing, however many of the other pages are
    complete. *)
Theorem main_waits_for_every_page
    (BeautifulSoup : string → node) (session : string → option response)
    (paginas : Z) (sched : list nat) (w : world) (i : nat) :
  (∀ pagina : Z, pagina ∈ range 1 paginas → is_Some (session (url_atrezzo pagina))) →
  (i < length (range 1 paginas))%nat →
  (count_occ Nat.eq_dec sched i < 2)%nat →
  (main BeautifulSoup session paginas sched w).1 = None.
Proof.
  intros Hresp Hi Hcount.
  destruct (lookup_lt_is_Some_2 _ _ Hi) as [pagina Hpagina].
  unfold main. rewrite tareas_fmap.
  pose proof (gather_pending session (sopa_atrezzo BeautifulSoup <$> range 1 paginas)
                sched w i (sopa_atrezzo BeautifulSoup pagina)) as Hpend.
  rewrite list_lookup_fmap, Hpagina in Hpend. specialize (Hpend eq_refl).
  rewrite awaits_sopa_atrezzo_Some in Hpend
    by (by eapply Hresp, list_elem_of_lookup_2).
  specialize (Hpend Hcount).
  pose proof (gather_sound session (sopa_atrezzo BeautifulSoup <$> range 1 paginas)
                sched w) as Hsound.
  destruct (gather _ _ _ _) as [[[sopas|e]|] w']; simpl in *; [|exfalso|done].
  - by destruct (Hpend sopas).
  - destruct Hsound as (c & Hc & He).
    apply list_elem_of_fmap in Hc as (pagina' & -> & Hin).
    rewrite run_alone_sopa_atrezzo in He.
    destruct (Hresp pagina' Hin) as [r Hr]. by rewrite Hr in He.
Qed.

Lemma main_waits_for_every_page_witness :
  (main parser_demo session_ok 3 [0; 0; 1]%nat mundo_inicial).1 = None.
Proof.
  apply (main_waits_for_every_page parser_demo session_ok 3 _ _ 1%nat).
  - intros pagina _. unfold session_ok. repeat case_match; by eexists.
  - vm_compute. lia.
  - vm_compute. lia.
Defined.

Lemma llenar_diccionario_columnas_wf (sopa : node) (df : DataFrame) :
  llenar_diccionario (Some sopa) = Ok df →
  length (categoria df) = length (nombre df) ∧
  length (descripcion df) = length (nombre df) ∧
  length (seccion df) = length (nombre df) ∧
  length (url df) = length (nombre df) ∧
  (length (nombre df) ≤ 48)%nat.
Proof.
  rewrite llenar_diccionario_columnas. intros Hdf.
  pose proof (length_descripciones_productos sopa) as Hd. unfold page_size in Hd.
  apply pd_DataFrame_inv in Hdf as (-> & H1 & H2 & H3 & H4). simpl.
  repeat split; lia.
Qed.

(** The documents and the columns behind a table [main] has returned. *)
Lemma main_table_columns
    (BeautifulSoup : string → node) (session : string → option response)
    (paginas : Z) (sched : list nat) (w : world) (df : DataFrame) :
  (main BeautifulSoup session paginas sched w).1 = Some (Ok df) →
  ∃ sopas : list (option node),
    (λ pagina, run_alone session (sopa_atrezzo BeautifulSoup pagina))
      <$> range 1 paginas = Ok <$> sopas ∧
    concat_df (tablas sopas) = Ok df ∧
    nombre df = mjoin (nombre <$> tablas sopas) ∧
    categoria df = mjoin (categoria <$> tablas sopas) ∧
    descripcion df = mjoin (descripcion <$> tablas sopas) ∧
    seccion df = mjoin (seccion <$> tablas sopas) ∧
    url df = mjoin (url <$> tablas sopas).
Proof.
  intros Hdf.
  destruct (main_sound BeautifulSoup session paginas sched w) as [Hnone|Hsome];
    [congruence|].
  rewrite Hsome in Hdf. injection Hdf as Hdf.
  destruct (result_all _) as [sopas|e] eqn:Hdocs; [|done].
  exists sopas. split; [by apply result_all_Ok_inv|]. split; [exact Hdf|].
  by apply concat_df_columns.
Qed.

Lemma elem_of_tablas (sopas : list (option node)) (d : DataFrame) :
  d ∈ tablas sopas → ∃ sopa : node, Some sopa ∈ sopas ∧ llenar_diccionario (Some sopa) = Ok d.
Proof.
  unfold tablas. rewrite list_elem_of_omap. intros ([sopa|] & Hin & Hd); [|done].
  exists sopa. split; [done|]. by destruct (llenar_diccionario (Some sopa)); simplify_eq.
Qed.

Lemma sum_list_nrows_bound (l : list DataFrame) :
  Forall (λ d, (nrows d ≤ 48)%nat) l →
  (sum_list (nrows <$> l) ≤ 48 * length l)%nat.
Proof. induction 1; csimpl; lia. Qed.

(** X13. The table [main] returns is never malformed and never larger than
    the pages allow: its five columns have the same length, it has at most
    48 rows for each of the [p - 1] pages requested, and a table is only
    ever returned for a page count of 2 or more. *)
Theorem combined_table_well_formed
    (BeautifulSoup : string → node) (session : string → option response)
    (paginas : Z) (sched : list nat) (w : world) (df : DataFrame) :
  (main BeautifulSoup session paginas sched w).1 = Some (Ok df) →
  length (categoria df) = nrows df ∧ length (descripcion df) = nrows df ∧
  length (seccion df) = nrows df ∧ length (url df) = nrows df ∧
  2 ≤ paginas ∧ Z.of_nat (nrows df) ≤ 48 * (paginas - 1).
Proof.
  intros Hdf.
  destruct (main_table_columns BeautifulSoup session paginas sched w df Hdf)
    as (sopas & Hdocs & Hconcat & Hn & Hc & Hd & Hs & Hu).
  assert (Hwf : Forall (λ d, length (categoria d) = nrows d ∧
                             length (descripcion d) = nrows d ∧
                             length (seccion d) = nrows d ∧
                             length (url d) = nrows d ∧
                             (nrows d ≤ 48)%nat) (tablas sopas)).
  { apply Forall_forall. intros d Hin.
    apply elem_of_tablas in Hin as (sopa & _ & Hsopa).
    destruct (llenar_diccionario_columnas_wf sopa d Hsopa) as (H1 & H2 & H3 & H4 & H5).
    unfold nrows. repeat split; lia. }
  assert (Hlen : length sopas = Z.to_nat (paginas - 1)).
  { apply (f_equal length) in Hdocs. rewrite !length_fmap in Hdocs.
    unfold range in Hdocs. rewrite length_seqZ in Hdocs. lia. }
  assert (Hne : tablas sopas ≠ []).
  { intros Hnil. rewrite Hnil in Hconcat. discriminate. }
  assert (Hsopas : (0 < length sopas)%nat).
  { pose proof (length_tablas sopas). destruct (tablas sopas); [done|simpl in *; lia]. }
  assert (Hcol : ∀ col : DataFrame → list cell,
            Forall (λ d, length (col d) = nrows d) (tablas sopas) →
            length (mjoin (col <$> tablas sopas)) = sum_list (nrows <$> tablas sopas)).
  { intros col Hall. rewrite length_join, <- list_fmap_compose.
    f_equal. by apply Forall_fmap_ext. }
  assert (Hrows : nrows df = sum_list (nrows <$> tablas sopas)).
  { unfold nrows at 1. rewrite Hn. apply Hcol, Forall_true. done. }
  rewrite Hrows, Hc, Hd, Hs, Hu.
  split; [apply Hcol; eapply Forall_impl; [exact Hwf|]; simpl; intros d0 Hd0; tauto|].
  split; [apply Hcol; eapply Forall_impl; [exact Hwf|]; simpl; intros d0 Hd0; tauto|].
  split; [apply Hcol; eapply Forall_impl; [exact Hwf|]; simpl; intros d0 Hd0; tauto|].
  split; [apply Hcol; eapply Forall_impl; [exact Hwf|]; simpl; intros d0 Hd0; tauto|].
  split; [lia|].
  pose proof (sum_list_nrows_bound (tablas sopas)) as Hbound.
  pose proof (length_tablas sopas).
  assert (sum_list (nrows <$> tablas sopas) ≤ 48 * length (tablas sopas))%nat.
  { apply Hbound. eapply Forall_impl; [exact Hwf|]. simpl. intros d0 Hd0. tauto. }
  lia.
Qed.

Lemma combined_table_well_formed_witness :
  ∃ df : DataFrame,
    (main parser_demo session_ok 3 [1; 1; 0; 0]%nat mundo_inicial).1 = Some (Ok df) ∧
    length (url df) = nrows df ∧ Z.of_nat (nrows df) ≤ 48 * (3 - 1).
Proof.
  eexists. split; [vm_compute; reflexivity|].
  destruct (combined_table_well_formed parser_demo session_ok 3 [1; 1; 0; 0]%nat
              mundo_inicial _ eq_refl) as (_ & _ & _ & Hu & _ & Hb).
  split; [exact Hu|exact Hb].
Defined.
